(** * SpeakerUp: device enumeration and volume control

    A shallow embedding of the [SpeakerUp] class of [a.py]: the device
    snapshot held on the object, the PowerShell queries it issues through
    [subprocess.run], and the messages it prints.  The operating system
    and [json.loads] are collaborators of the program: they are variables
    of the section in which the methods are defined. *)

From Stdlib Require Import ZArith List Ascii String Bool Lia QArith Qabs.
From Stdlib Require Import Floats.
Import ListNotations.

#[local] Set Warnings "-register-all".

Local Open Scope string_scope.
Local Open Scope list_scope.
Local Open Scope Z_scope.

(** ** Values decoded by [json.loads]

    A Python dict is kept as the list of its items in insertion order
    (its keys are distinct, as [json.loads] builds it). *)

Inductive json : Type :=
| JNull
| JBool (b : bool)
| JInt (n : Z)
| JFloat (f : float)
| JStr (s : string)
| JArr (items : list json)
| JObj (fields : list (string * json)).

(** [isinstance(v, list)] *)
Definition is_list (v : json) : bool :=
  match v with
  | JArr _ => true
  | _ => false
  end.

(** [if not isinstance(v, list): v = [v]], then [v] read as a list. *)
Definition normalize (v : json) : list json :=
  if negb (is_list v) then [v]
  else match v with
       | JArr items => items
       | _ => []
       end.

(** Python truth value of a decoded value. *)
Definition truthy (v : json) : bool :=
  match v with
  | JNull => false
  | JBool b => b
  | JInt n => negb (n =? 0)
  | JFloat f => negb (PrimFloat.eqb f 0%float)
  | JStr s => negb (String.eqb s "")
  | JArr items => match items with [] => false | _ => true end
  | JObj fields => match fields with [] => false | _ => true end
  end.

(** Item lookup in a dict. *)
Fixpoint dict_lookup (fields : list (string * json)) (key : string)
  : option json :=
  match fields with
  | [] => None
  | (k, v) :: rest => if String.eqb k key then Some v else dict_lookup rest key
  end.

(** ** Exceptions and outcomes

    The exceptions a method of the class can end with.  Three of them are
    Python classes that also arise outside the methods, and carry the name
    of where they arise here: [LoadsValueError] is the plain [ValueError]
    [json.loads] raises for an integer beyond the digit limit, and
    [CallInterrupted] is the [KeyboardInterrupt] of a Ctrl-C while
    [subprocess.run] waits for the child.  [JSONDecodeError],
    [UnicodeDecodeError] and [LoadsValueError] are [ValueError]s;
    [FileNotFoundError] and [PermissionError] are [OSError]s;
    [CallInterrupted] is not an [Exception]. *)

Inductive exn : Type :=
| CalledProcessError (returncode : Z) (stderr : string)
| JSONDecodeError
| FileNotFoundError
| TimeoutExpired
| IndexError
| KeyError (key : string)
| TypeError
| AttributeError
| PermissionError
| UnicodeDecodeError
| LoadsValueError
| RecursionError
| CallInterrupted.

(** [except Exception]: every class above but [KeyboardInterrupt]. *)
Definition is_exception (e : exn) : bool :=
  match e with
  | CallInterrupted => false
  | _ => true
  end.

(** A call returns a value, raises, or never comes back (a child process
    that does not exit, waited for without a timeout). *)
Inductive outcome (A : Type) : Type :=
| Returns (a : A)
| Raises (e : exn)
| Diverges.

Arguments Returns {A} a.
Arguments Raises {A} e.
Arguments Diverges {A}.

(** ** The PowerShell scripts

    The script texts of [a.py] are fixed apart from the values the
    f-strings interpolate; a script is kept as its kind and those values. *)

Inductive ps_script : Type :=
| QueryPlaybackDevices
| SetDeviceVolume (device_index : Z) (level : float)
| SetDefaultVolume (level : float).

(** The arguments of one [subprocess.run] call. *)
Record run_request : Type := mkRequest {
  program : string;
  script : ps_script;
  capture_output : bool;
  text : bool;
  check : bool;
  timeout : option Z
}.

Record completed_process : Type := mkCompleted {
  returncode : Z;
  stdout : string;
  stderr : string
}.

(** What becomes of one [subprocess.run] call, as the operating system and
    the user decide it: the program is not found; it is found but may not
    be executed; the child exits with status [rc], and [out] and [err] are
    its output decoded as text; the child exits and its output is not text
    in the encoding of the locale; the child never exits; Ctrl-C arrives
    while the call waits. *)
Inductive process : Type :=
| NotFound
| NotPermitted
| Exits (rc : Z) (out err : string)
| Undecodable (rc : Z)
| NeverExits
| Interrupted.

(** What [json.loads] does with a text: it returns the decoded value, or
    raises [JSONDecodeError] (the text is not JSON), [ValueError] (an integer
    beyond the digit limit) or [RecursionError] (nesting too deep). *)
Inductive loads_outcome : Type :=
| Loaded (v : json)
| Malformed
| TooManyDigits
| TooDeep.

(** ** Observable effects *)

Inductive message : Type :=
| MsgCouldNotRetrieve
| MsgDevicesHeader
| MsgRule
| MsgDeviceLine (ordinal : Z) (name : json) (default_marker : bool)
| MsgVolumeRange
| MsgVolumeSet (volume : Z) (device_name : json)
| MsgErrorSetting (stderr : string).

Inductive event : Type :=
| OsCall (req : run_request)
| Print (msg : message).

(** The OS calls of a trace, in order. *)
Fixpoint os_calls (tr : list event) : list run_request :=
  match tr with
  | [] => []
  | OsCall req :: rest => req :: os_calls rest
  | Print _ :: rest => os_calls rest
  end.

(** The printed messages of a trace, in order. *)
Fixpoint printed (tr : list event) : list message :=
  match tr with
  | [] => []
  | OsCall _ :: rest => printed rest
  | Print msg :: rest => msg :: printed rest
  end.

(** ** The object and the monad of its methods *)

Record SpeakerUp : Type := mkSpeakerUp {
  devices : list json
}.

(** [SpeakerUp.__init__] *)
Definition init : SpeakerUp := mkSpeakerUp [].

Record run_result (A : Type) : Type := mkResult {
  result : outcome A;
  final : SpeakerUp;
  trace : list event
}.

Arguments mkResult {A} result final trace.
Arguments result {A} r.
Arguments final {A} r.
Arguments trace {A} r.

Definition M (A : Type) : Type := SpeakerUp -> run_result A.

Definition ret {A : Type} (a : A) : M A :=
  fun self => mkResult (Returns a) self [].

Definition raise {A : Type} (e : exn) : M A :=
  fun self => mkResult (Raises e) self [].

Definition diverge {A : Type} : M A :=
  fun self => mkResult Diverges self [].

Definition bind {A B : Type} (m : M A) (k : A -> M B) : M B :=
  fun self =>
    let r := m self in
    match result r with
    | Returns a =>
        let r' := k a (final r) in
        mkResult (result r') (final r') (trace r ++ trace r')
    | Raises e => mkResult (Raises e) (final r) (trace r)
    | Diverges => mkResult Diverges (final r) (trace r)
    end.

(** [try: body except <classes>: handler]; a diverging body is not caught. *)
Definition try_except {A : Type} (body : M A) (catches : exn -> bool)
  (handler : exn -> M A) : M A :=
  fun self =>
    let r := body self in
    match result r with
    | Raises e =>
        if catches e then
          let r' := handler e (final r) in
          mkResult (result r') (final r') (trace r ++ trace r')
        else r
    | _ => r
    end.

Definition emit (ev : event) : M unit :=
  fun self => mkResult (Returns tt) self [ev].

Definition print (msg : message) : M unit := emit (Print msg).

Definition get_devices : M (list json) :=
  fun self => mkResult (Returns (devices self)) self [].

Definition set_devices (ds : list json) : M unit :=
  fun _ => mkResult (Returns tt) (mkSpeakerUp ds) [].

Declare Scope py_scope.
Delimit Scope py_scope with py.

Notation "x <- m ;; k" := (bind m (fun x => k))
  (at level 61, m at next level, right associativity) : py_scope.
Notation "m ;; k" := (bind m (fun _ => k))
  (at level 61, right associativity) : py_scope.

Local Open Scope py_scope.

(** ** Python list and item access *)

(** [seq[i]] on a list: a negative index counts from the end. *)
Definition py_index {A : Type} (l : list A) (i : Z) : option A :=
  let n := Z.of_nat (List.length l) in
  if i <? 0 then
    if 0 <=? n + i then nth_error l (Z.to_nat (n + i)) else None
  else nth_error l (Z.to_nat i).

(** [v[key]] with a string key. *)
Definition subscript (v : json) (key : string) : M json :=
  match v with
  | JObj fields =>
      match dict_lookup fields key with
      | Some x => ret x
      | None => raise (KeyError key)
      end
  | _ => raise TypeError
  end.

(** [v.get(key, default)]: only a dict has the method. *)
Definition dict_get (v : json) (key : string) (default : json) : M json :=
  match v with
  | JObj fields =>
      match dict_lookup fields key with
      | Some x => ret x
      | None => ret default
      end
  | _ => raise AttributeError
  end.

(** ** Numbers *)

Definition Z_to_float (v : Z) : float :=
  match v with
  | Z0 => 0%float
  | Zpos _ => PrimFloat.of_uint63 (Uint63.of_Z v)
  | Zneg _ => PrimFloat.opp (PrimFloat.of_uint63 (Uint63.of_Z (- v)))
  end.

(** [volume / 100]: Python's true division of two ints, the double nearest
    to the quotient.  The conversion of [volume] is exact below 2^53, which
    covers every value that passes the range check of [set_volume]. *)
Definition volume_fraction (volume : Z) : float :=
  PrimFloat.div (Z_to_float volume) 100%float.

(** The rational a finite double stands for. *)
Definition float_value (f : float) : option Q :=
  match Prim2SF f with
  | S754_zero _ => Some 0%Q
  | S754_finite sign m e =>
      let mag := (inject_Z (Zpos m) * Qpower 2 e)%Q in
      Some (if sign then Qopp mag else mag)
  | _ => None
  end.

Section Methods.

(** The operating system: what the child process of a request does. *)
Variable os : run_request -> process.

(** [json.loads] *)
Variable json_loads : string -> loads_outcome.

(** [subprocess.run(...)] as the program uses it, with captured output
    read as text: the output is decoded before the exit status is
    looked at. *)
Definition subprocess_run (req : run_request) : M completed_process :=
  emit (OsCall req) ;;
  match os req with
  | NotFound => raise FileNotFoundError
  | NotPermitted => raise PermissionError
  | Interrupted => raise CallInterrupted
  | NeverExits =>
      match timeout req with
      | Some _ => raise TimeoutExpired
      | None => diverge
      end
  | Undecodable _ => raise UnicodeDecodeError
  | Exits rc out err =>
      if check req && negb (rc =? 0)
      then raise (CalledProcessError rc err)
      else ret (mkCompleted rc out err)
  end.

Definition powershell (cmd : ps_script) : run_request :=
  mkRequest "powershell" cmd true true true None.

Definition loads (s : string) : M json :=
  match json_loads s with
  | Loaded v => ret v
  | Malformed => raise JSONDecodeError
  | TooManyDigits => raise LoadsValueError
  | TooDeep => raise RecursionError
  end.

Definition fallback_device : json :=
  JObj [("Index", JInt 0); ("Name", JStr "Default Audio Device");
        ("Default", JBool true)].

Definition _get_devices_fallback : M bool :=
  try_except
    (set_devices [fallback_device] ;;
     ret true)
    is_exception
    (fun _ => print MsgCouldNotRetrieve ;; ret false).

Definition get_audio_devices : M bool :=
  try_except
    (res <- subprocess_run (powershell QueryPlaybackDevices) ;;
     devices_data <- loads (stdout res) ;;
     set_devices (normalize devices_data) ;;
     ret true)
    (fun e =>
       match e with
       | CalledProcessError _ _ | JSONDecodeError | FileNotFoundError => true
       | _ => false
       end)
    (fun _ => _get_devices_fallback).

(** The body of the [for] loop of [list_devices], from position [i]. *)
Fixpoint print_devices (i : Z) (ds : list json) : M unit :=
  match ds with
  | [] => ret tt
  | device :: rest =>
      flag <- dict_get device "Default" (JBool false) ;;
      name <- subscript device "Name" ;;
      print (MsgDeviceLine (i + 1) name (truthy flag)) ;;
      print_devices (i + 1) rest
  end.

(** The printing part of [list_devices]. *)
Definition display_devices : M bool :=
  print MsgDevicesHeader ;;
  print MsgRule ;;
  ds <- get_devices ;;
  print_devices 0 ds ;;
  print MsgRule ;;
  ret true.

Definition list_devices : M bool :=
  ds <- get_devices ;;
  ok <- (match ds with
         | [] => get_audio_devices
         | _ => ret true
         end) ;;
  if negb ok then ret false
  else display_devices.

(** The name [set_volume] reports: [device_name = "Default Device"], replaced
    by [self.devices[device_index]["Name"]] when
    [device_index is not None and device_index < len(self.devices)]. *)
Definition resolve_device_name (ds : list json) (device_index : option Z)
  : M json :=
  match device_index with
  | Some i =>
      if i <? Z.of_nat (List.length ds) then
        match py_index ds i with
        | Some device => subscript device "Name"
        | None => raise IndexError
        end
      else ret (JStr "Default Device")
  | None => ret (JStr "Default Device")
  end.

Definition set_volume (volume : Z) (device_index : option Z) : M bool :=
  if (volume <? 0) || (volume >? 100) then
    print MsgVolumeRange ;;
    ret false
  else
    try_except
      (let ps_command :=
         match device_index with
         | Some i => SetDeviceVolume i (volume_fraction volume)
         | None => SetDefaultVolume (volume_fraction volume)
         end in
       subprocess_run (powershell ps_command) ;;
       ds <- get_devices ;;
       device_name <- resolve_device_name ds device_index ;;
       print (MsgVolumeSet volume device_name) ;;
       ret true)
      (fun e =>
         match e with
         | CalledProcessError _ _ => true
         | _ => false
         end)
      (fun e =>
         match e with
         | CalledProcessError _ err => print (MsgErrorSetting err)
         | _ => ret tt
         end ;;
         ret false).

End Methods.

(** ** Reading the snapshot *)

(** The flag [list_devices] reads with [device.get("Default", False)]. *)
Definition device_is_default (device : json) : bool :=
  match device with
  | JObj fields =>
      match dict_lookup fields "Default" with
      | Some v => truthy v
      | None => false
      end
  | _ => false
  end.

(** A field of a device record, when the device is a dict that has it. *)
Definition device_field (device : json) (key : string) : option json :=
  match device with
  | JObj fields => dict_lookup fields key
  | _ => None
  end.

Definition count_defaults (ds : list json) : nat :=
  List.length (filter device_is_default ds).

(** The request [set_volume] builds for a volume and a target. *)
Definition volume_request (volume : Z) (device_index : option Z)
  : run_request :=
  powershell
    match device_index with
    | Some i => SetDeviceVolume i (volume_fraction volume)
    | None => SetDefaultVolume (volume_fraction volume)
    end.

(** The request [get_audio_devices] builds. *)
Definition query_request : run_request := powershell QueryPlaybackDevices.

(** The level a volume script assigns. *)
Definition script_level (cmd : ps_script) : option float :=
  match cmd with
  | QueryPlaybackDevices => None
  | SetDeviceVolume _ level => Some level
  | SetDefaultVolume level => Some level
  end.

(** The exceptions of the query that [get_audio_devices] does not catch. *)
Definition escapes_enumeration (e : exn) : Prop :=
  e = PermissionError \/ e = UnicodeDecodeError \/ e = LoadsValueError
  \/ e = RecursionError \/ e = CallInterrupted.

(** An enumeration that does not return: the query blocks, or raises what
    [get_audio_devices] does not catch. *)
Definition stopped (o : outcome bool) : Prop :=
  o = Diverges \/ exists e, o = Raises e /\ escapes_enumeration e.

(** What [get_audio_devices] leaves behind when it takes the fallback. *)
Definition fallback_result : run_result bool :=
  mkResult (Returns true) (mkSpeakerUp [fallback_device])
    [OsCall query_request].

(** The failures of the primary enumeration path that [get_audio_devices]
    catches: PowerShell is not there ([FileNotFoundError]), the query exits
    with a non-zero status and an output that is text
    ([CalledProcessError]), or it exits with status 0 and a text that is
    not JSON ([JSONDecodeError]). *)
Inductive primary_failure (os : run_request -> process)
  (json_loads : string -> loads_outcome) : Prop :=
| facility_absent :
    os query_request = NotFound -> primary_failure os json_loads
| nonzero_exit (rc : Z) (out err : string) :
    os query_request = Exits rc out err -> rc <> 0 ->
    primary_failure os json_loads
| malformed_output (out err : string) :
    os query_request = Exits 0 out err -> json_loads out = Malformed ->
    primary_failure os json_loads.

(** ** The normalized fraction *)

Definition fraction_in_unit (volume : Z) : bool :=
  PrimFloat.leb 0%float (volume_fraction volume)
  && PrimFloat.leb (volume_fraction volume) 1%float.

(** The double sent is within half a unit in the last place of
    [volume / 100]. *)
Definition fraction_nearest (volume : Z) : bool :=
  match float_value (volume_fraction volume) with
  | Some q => Qle_bool (Qabs (q - Qmake volume 100)) (Qpower 2 (-54))
  | None => false
  end.

Definition percents : list Z := map Z.of_nat (seq 0 101).

(** ** Scenario worlds *)

(** Every script exits with status 0 and prints nothing. *)
Definition os_quiet : run_request -> process :=
  fun _ => Exits 0 "" "".

(** PowerShell is not installed. *)
Definition os_absent : run_request -> process :=
  fun _ => NotFound.

(** The child process never exits. *)
Definition os_hangs : run_request -> process :=
  fun _ => NeverExits.

(** Every script exits with status 1 and a diagnostic. *)
Definition os_fails : run_request -> process :=
  fun _ => Exits 1 "" "Get-AudioDevice : command not recognized".

(** The output of every script is not text in the encoding of the locale. *)
Definition os_garbled : run_request -> process :=
  fun _ => Undecodable 0.


(** Ctrl-C arrives during every call. *)
Definition os_interrupted : run_request -> process :=
  fun _ => Interrupted.

(** PowerShell is not found for the query, and the output of the volume
    scripts is not text in the encoding of the locale. *)
Definition os_garbled_volume : run_request -> process :=
  fun req =>
    match script req with
    | QueryPlaybackDevices => NotFound
    | _ => Undecodable 0
    end.

(** Every script exits with status 0 and the given output. *)
Definition os_prints (out : string) : run_request -> process :=
  fun _ => Exits 0 out "".

Definition dq : string := String (Ascii.ascii_of_nat 34) EmptyString.

(** A JSON string literal without escapes. *)
Definition quoted (s : string) : string := (dq ++ s ++ dq)%string.

Definition device_text (index name default : string) : string :=
  ("{" ++ quoted "Index" ++ ":" ++ index ++ ","
   ++ quoted "Name" ++ ":" ++ quoted name ++ ","
   ++ quoted "Default" ++ ":" ++ default ++ "}")%string.

Definition device_value (index : Z) (name : string) (default : bool) : json :=
  JObj [("Index", JInt index); ("Name", JStr name); ("Default", JBool default)].

(** [{"Index":0,"Name":"Speakers","Default":true}] *)
Definition one_device_text : string := device_text "0" "Speakers" "true".

(** [[{"Index":0,"Name":"Speakers","Default":true},
      {"Index":1,"Name":"Headset","Default":false}]] *)
Definition two_devices_text : string :=
  ("[" ++ device_text "0" "Speakers" "true" ++ ","
   ++ device_text "1" "Headset" "false" ++ "]")%string.

(** [[{"Index":0,"Name":"Speakers","Default":true},
      {"Index":1,"Name":"Headset","Default":true}]] *)
Definition two_defaults_text : string :=
  ("[" ++ device_text "0" "Speakers" "true" ++ ","
   ++ device_text "1" "Headset" "true" ++ "]")%string.

(** [json.loads] on the texts of the scenarios; every other text of the
    scenarios (the empty output among them) is not JSON. *)
Definition loads_scenarios (s : string) : loads_outcome :=
  if String.eqb s one_device_text then
    Loaded (device_value 0 "Speakers" true)
  else if String.eqb s two_devices_text then
    Loaded (JArr [device_value 0 "Speakers" true;
                  device_value 1 "Headset" false])
  else if String.eqb s two_defaults_text then
    Loaded (JArr [device_value 0 "Speakers" true;
                  device_value 1 "Headset" true])
  else Malformed.

(** A snapshot of two devices. *)
Definition two_devices : SpeakerUp :=
  mkSpeakerUp [device_value 0 "Speakers" true;
               device_value 1 "Headset" false].

(** ** The rest of the class and the command line

    [interactive_mode] and [main] read lines from the terminal and print
    more messages than the methods above; they get a layer of their own
    over the methods.  [int] and [str.strip] are Python built-ins, taken as
    variables like [json.loads]. *)

(** [self.devices[i]['Name']] *)
Definition item_name (ds : list json) (i : Z) : M json :=
  match py_index ds i with
  | Some device => subscript device "Name"
  | None => raise IndexError
  end.

(** [0 <= device_idx < len(self.devices)] *)
Definition in_snapshot (device_idx : Z) (ds : list json) : bool :=
  (0 <=? device_idx) && (device_idx <? Z.of_nat (List.length ds)).

(** What the terminal holds for the next [input()]: a line, or Ctrl-C. *)
Inductive keystroke : Type :=
| Line (s : string)
| CtrlC.

(** What a command can end with: an exception of a method call, the
    [ValueError] of [int] on an entry that is not a number, and the
    [EOFError] and [KeyboardInterrupt] of [input()].  Ctrl-C while a method
    waits for its child process is [MethodError CallInterrupted]. *)
Inductive cli_exn : Type :=
| MethodError (e : exn)
| ValueError
| EOFError
| KeyboardInterrupt.

(** The prompts of [input()]. *)
Inductive prompt : Type :=
| AskChoice
| AskVolume
| AskDevice
| AskCrazeDevice
| AskCrazeDeviceNumber
| AskCrazeVolume.

Inductive cli_message : Type :=
| MsgBanner (line : Z)
| MsgOptions
| MsgOption (n : Z)
| MsgInvalidVolume
| MsgInvalidInput
| MsgInvalidSelection
| MsgInvalidChoice
| MsgCrazeActivated
| MsgCrazeGoCrazy
| MsgCrazeAnyVolume
| MsgCrazeAppliedDefault (volume : Z)
| MsgCrazeApplied (volume : Z) (name : json)
| MsgRefreshing
| MsgGoodbye
| MsgGoodbyeInterrupted
| MsgHelp.

Inductive cli_event : Type :=
| Method (ev : event)
| Ask (p : prompt)
| Say (msg : cli_message).

(** [Unfinished] is the loop of the model running out of fuel; the program
    has no such outcome. *)
Inductive cli_outcome (A : Type) : Type :=
| Done (a : A)
| Fails (e : cli_exn)
| Blocks
| Unfinished.

Arguments Done {A} a.
Arguments Fails {A} e.
Arguments Blocks {A}.
Arguments Unfinished {A}.

Record cli_result (A : Type) : Type := mkCli {
  ended : cli_outcome A;
  app : SpeakerUp;
  unread : list keystroke;
  events : list cli_event
}.

Arguments mkCli {A} ended app unread events.
Arguments ended {A} c.
Arguments app {A} c.
Arguments unread {A} c.
Arguments events {A} c.

Definition CM (A : Type) : Type :=
  SpeakerUp -> list keystroke -> cli_result A.

Definition cret {A : Type} (a : A) : CM A :=
  fun self inp => mkCli (Done a) self inp [].

Definition cfail {A : Type} (e : cli_exn) : CM A :=
  fun self inp => mkCli (Fails e) self inp [].

Definition cbind {A B : Type} (m : CM A) (k : A -> CM B) : CM B :=
  fun self inp =>
    let r := m self inp in
    match ended r with
    | Done a =>
        let r' := k a (app r) (unread r) in
        mkCli (ended r') (app r') (unread r') (events r ++ events r')
    | Fails e => mkCli (Fails e) (app r) (unread r) (events r)
    | Blocks => mkCli Blocks (app r) (unread r) (events r)
    | Unfinished => mkCli Unfinished (app r) (unread r) (events r)
    end.

(** [try: body except <classes>: handler] at this level. *)
Definition ctry {A : Type} (body : CM A) (catches : cli_exn -> bool)
  (handler : CM A) : CM A :=
  fun self inp =>
    let r := body self inp in
    match ended r with
    | Fails e =>
        if catches e then
          let r' := handler (app r) (unread r) in
          mkCli (ended r') (app r') (unread r') (events r ++ events r')
        else r
    | _ => r
    end.

(** A method call. *)
Definition lift {A : Type} (m : M A) : CM A :=
  fun self inp =>
    let r := m self in
    mkCli
      match result r with
      | Returns a => Done a
      | Raises e => Fails (MethodError e)
      | Diverges => Blocks
      end
      (final r) inp (map Method (trace r)).

Definition say (msg : cli_message) : CM unit :=
  fun self inp => mkCli (Done tt) self inp [Say msg].

(** [input(prompt)]: end of input raises [EOFError], Ctrl-C raises
    [KeyboardInterrupt]. *)
Definition input (p : prompt) : CM string :=
  fun self inp =>
    match inp with
    | [] => mkCli (Fails EOFError) self [] [Ask p]
    | Line s :: rest => mkCli (Done s) self rest [Ask p]
    | CtrlC :: rest => mkCli (Fails KeyboardInterrupt) self rest [Ask p]
    end.

(** [except ValueError]: the [ValueError] of [int] and, from a method,
    its subclasses [JSONDecodeError] and [UnicodeDecodeError] and the
    [ValueError] of [json.loads]. *)
Definition is_value_error (e : cli_exn) : bool :=
  match e with
  | ValueError => true
  | MethodError JSONDecodeError => true
  | MethodError UnicodeDecodeError => true
  | MethodError LoadsValueError => true
  | _ => false
  end.

(** [except KeyboardInterrupt]: Ctrl-C at a prompt or during a call. *)
Definition is_keyboard_interrupt (e : cli_exn) : bool :=
  match e with
  | KeyboardInterrupt => true
  | MethodError CallInterrupted => true
  | _ => false
  end.

(** The parsed command line: the fields of [args], and whether
    [len(sys.argv) == 1]. *)
Record arguments : Type := mkArguments {
  arg_volume : option Z;
  arg_device : option Z;
  arg_list : bool;
  arg_interactive : bool;
  arg_craze : bool;
  no_arguments : bool
}.

Declare Scope cli_scope.
Delimit Scope cli_scope with cli.

Notation "x <- m ;; k" := (cbind m (fun x => k))
  (at level 61, m at next level, right associativity) : cli_scope.
Notation "m ;; k" := (cbind m (fun _ => k))
  (at level 61, right associativity) : cli_scope.

Section CommandLine.

Variable os : run_request -> process.
Variable json_loads : string -> loads_outcome.

(** [int(s)]; [None] stands for [ValueError]. *)
Variable py_int : string -> option Z.

(** [s.strip()] *)
Variable strip : string -> string.

(** Choice 4 of the menu: [self.get_audio_devices()] then
    [self.list_devices()]. *)
Definition refresh_devices : M bool :=
  get_audio_devices os json_loads ;;
  list_devices os json_loads.

Local Open Scope cli_scope.

Definition to_int (s : string) : CM Z :=
  match py_int s with
  | Some n => cret n
  | None => cfail ValueError
  end.

(** [input(prompt).strip()] *)
Definition input_stripped (p : prompt) : CM string :=
  s <- input p ;;
  cret (strip s).

(** Choice 1: volume for the default device. *)
Definition choice_default_volume : CM unit :=
  volume <- input AskVolume ;;
  ctry
    (volume <- to_int volume ;;
     lift (set_volume os volume None) ;;
     cret tt)
    is_value_error
    (say MsgInvalidVolume).

(** Choice 2: choose a device and set its volume. *)
Definition choice_device_volume : CM unit :=
  device_choice <- input AskDevice ;;
  volume <- input AskVolume ;;
  ctry
    (n <- to_int device_choice ;;
     let device_idx := n - 1 in
     volume <- to_int volume ;;
     ds <- lift get_devices ;;
     if in_snapshot device_idx ds then
       lift (set_volume os volume (Some device_idx)) ;;
       cret tt
     else say MsgInvalidSelection)
    is_value_error
    (say MsgInvalidInput).

(** Choice 3: CRAZE mode of the menu. *)
Definition choice_craze : CM unit :=
  say MsgCrazeActivated ;;
  say MsgCrazeGoCrazy ;;
  lift (list_devices os json_loads) ;;
  device_choice <- input_stripped AskCrazeDevice ;;
  volume <- input AskCrazeVolume ;;
  ctry
    (volume <- to_int volume ;;
     if String.eqb device_choice "" then
       lift (set_volume os volume None) ;;
       say (MsgCrazeAppliedDefault volume)
     else
       n <- to_int device_choice ;;
       let device_idx := n - 1 in
       ds <- lift get_devices ;;
       if in_snapshot device_idx ds then
         lift (set_volume os volume (Some device_idx)) ;;
         ds <- lift get_devices ;;
         name <- lift (item_name ds device_idx) ;;
         say (MsgCrazeApplied volume name)
       else say MsgInvalidSelection)
    is_value_error
    (say MsgInvalidVolume).

(** Choice 4: refresh. *)
Definition choice_refresh : CM unit :=
  say MsgRefreshing ;;
  lift refresh_devices ;;
  cret tt.

(** What follows the choice; [false] is [break]. *)
Definition dispatch (choice : string) : CM bool :=
  if String.eqb choice "1" then choice_default_volume ;; cret true
  else if String.eqb choice "2" then choice_device_volume ;; cret true
  else if String.eqb choice "3" then choice_craze ;; cret true
  else if String.eqb choice "4" then choice_refresh ;; cret true
  else if String.eqb choice "5" then say MsgGoodbye ;; cret false
  else say MsgInvalidChoice ;; cret true.

Definition print_options : CM unit :=
  say MsgOptions ;;
  say (MsgOption 1) ;;
  say (MsgOption 2) ;;
  say (MsgOption 3) ;;
  say (MsgOption 4) ;;
  say (MsgOption 5).

(** One turn of the [while True] loop; [false] is [break]. *)
Definition menu_iteration : CM bool :=
  ctry
    (print_options ;;
     choice <- input_stripped AskChoice ;;
     dispatch choice)
    is_keyboard_interrupt
    (say MsgGoodbyeInterrupted ;; cret false).

Fixpoint menu_loop (fuel : nat) : CM unit :=
  match fuel with
  | O => fun self inp => mkCli Unfinished self inp []
  | S fuel' =>
      again <- menu_iteration ;;
      if again then menu_loop fuel' else cret tt
  end.

Definition print_banner : CM unit :=
  say (MsgBanner 1) ;;
  say (MsgBanner 2) ;;
  say (MsgBanner 3) ;;
  say (MsgBanner 4) ;;
  say (MsgBanner 5) ;;
  say (MsgBanner 6).

Definition interactive_mode (fuel : nat) : CM unit :=
  print_banner ;;
  ok <- lift (list_devices os json_loads) ;;
  if negb ok then cret tt
  else menu_loop fuel.

(** The [--craze] branch of [main]. *)
Definition main_craze : CM unit :=
  say MsgCrazeActivated ;;
  say MsgCrazeAnyVolume ;;
  lift (list_devices os json_loads) ;;
  device_choice <- input_stripped AskCrazeDeviceNumber ;;
  volume <- input AskCrazeVolume ;;
  ctry
    (volume <- to_int volume ;;
     if String.eqb device_choice "" then
       lift (set_volume os volume None) ;;
       cret tt
     else
       n <- to_int device_choice ;;
       let device_idx := n - 1 in
       ds <- lift get_devices ;;
       if in_snapshot device_idx ds then
         lift (set_volume os volume (Some device_idx)) ;;
         cret tt
       else say MsgInvalidSelection)
    is_value_error
    (say MsgInvalidVolume).

(** [main], from the parsed arguments on; [speaker_up = SpeakerUp()]. *)
Definition main (fuel : nat) (args : arguments) (inp : list keystroke)
  : cli_result unit :=
  (if arg_list args then
     lift (list_devices os json_loads) ;;
     cret tt
   else if arg_craze args then main_craze
   else
     match arg_volume args with
     | Some volume =>
         let device_idx :=
           match arg_device args with
           | Some device => Some (device - 1)
           | None => None
           end in
         lift (set_volume os volume device_idx) ;;
         cret tt
     | None =>
         if arg_interactive args || no_arguments args
         then interactive_mode fuel
         else say MsgHelp
     end) init inp.

End CommandLine.

(** ** Reading what was issued *)

(** The volume level of a script lies in [0.0, 1.0]. *)
Definition level_in_unit (cmd : ps_script) : Prop :=
  match script_level cmd with
  | Some level =>
      PrimFloat.leb 0%float level = true
      /\ PrimFloat.leb level 1%float = true
  | None => True
  end.

(** A script that names a device names it by a non-negative index. *)
Definition index_not_negative (cmd : ps_script) : Prop :=
  match cmd with
  | SetDeviceVolume i _ => 0 <= i
  | _ => True
  end.

(** A run with the events [evs] before its own. *)
Definition prepend {A : Type} (evs : list cli_event) (r : cli_result A)
  : cli_result A :=
  mkCli (ended r) (app r) (unread r) (evs ++ events r).

(** The scripts run in the course of a command. *)
Fixpoint scripts_run (evs : list cli_event) : list ps_script :=
  match evs with
  | [] => []
  | Method (OsCall req) :: rest => script req :: scripts_run rest
  | _ :: rest => scripts_run rest
  end.

(** What a method call of the menu may raise: anything but the exceptions
    the methods catch themselves, [TimeoutExpired] (no timeout is set) and
    [IndexError] (the menu checks the index first). *)
Definition method_exn (e : exn) : Prop :=
  match e with
  | CalledProcessError _ _ => False
  | JSONDecodeError => False
  | TimeoutExpired => False
  | IndexError => False
  | _ => True
  end.

(** What may leave a turn of the menu loop: not the [ValueError] of [int],
    not Ctrl-C, and of the exceptions of a method only those of
    [method_exn]. *)
Definition loop_exn (e : cli_exn) : Prop :=
  match e with
  | ValueError => False
  | KeyboardInterrupt => False
  | MethodError CallInterrupted => False
  | MethodError e' => method_exn e'
  | EOFError => True
  end.

(** What may leave an interactive session: what may leave a turn of the
    loop, and Ctrl-C during the listing that precedes the loop. *)
Definition session_exn (e : cli_exn) : Prop :=
  loop_exn e \/ e = MethodError CallInterrupted.

(** Inside the loop of the menu Ctrl-C is still on its way to the handler
    of the loop. *)
Definition menu_exn (e : cli_exn) : Prop :=
  loop_exn e \/ is_keyboard_interrupt e = true.

(** Inside a [try ... except ValueError] of the menu. *)
Definition parsing_exn (e : cli_exn) : Prop :=
  menu_exn e \/ is_value_error e = true.

(** What may leave [main]. *)
Definition main_exn (e : cli_exn) : Prop :=
  menu_exn e \/ e = MethodError IndexError.

Definition safe_script (cmd : ps_script) : Prop :=
  level_in_unit cmd /\ index_not_negative cmd.

(** A method run whose scripts satisfy [P] and whose exception, if it
    raises, satisfies [ok]. *)
Definition method_ok {A : Type} (P : ps_script -> Prop) (ok : exn -> Prop)
  (r : run_result A) : Prop :=
  Forall P (map script (os_calls (trace r)))
  /\ forall e, result r = Raises e -> ok e.

(** A command run from the terminal [inp] whose scripts satisfy [P], whose
    exception, if it fails, satisfies [ok], which does not run out of fuel
    and which leaves no more to read than it found. *)
Definition well_behaved {A : Type} (P : ps_script -> Prop)
  (ok : cli_exn -> Prop) (inp : list keystroke) (r : cli_result A) : Prop :=
  Forall P (scripts_run (events r))
  /\ (forall e, ended r = Fails e -> ok e)
  /\ ended r <> Unfinished
  /\ (List.length (unread r) <= List.length inp)%nat.

(** The line [list_devices] prints for the device at position [k]. *)
Definition device_line (k : nat) (device name : json) : message :=
  MsgDeviceLine (Z.of_nat k + 1) name (device_is_default device).

(** What stops [list_devices] at a record: not a dict, or no name. *)
Definition listing_error (device : json) : option exn :=
  match device with
  | JObj fields =>
      match dict_lookup fields "Name" with
      | Some _ => None
      | None => Some (KeyError "Name")
      end
  | _ => Some AttributeError
  end.

(** The lines for the records of [ds], the first at position [k], up to
    the first record without a name. *)
Fixpoint device_lines (k : nat) (ds : list json) : list message :=
  match ds with
  | [] => []
  | device :: rest =>
      match device_field device "Name" with
      | Some name => device_line k device name :: device_lines (S k) rest
      | None => []
      end
  end.

(** The lines of the listing loop. *)
Definition is_device_line (msg : message) : Prop :=
  match msg with
  | MsgDeviceLine _ _ _ => True
  | _ => False
  end.

(** ** Scenario terminals *)

Fixpoint digits_value (s : string) (acc : Z) : option Z :=
  match s with
  | EmptyString => Some acc
  | String c rest =>
      let d := Z.of_nat (Ascii.nat_of_ascii c) - 48 in
      if (0 <=? d) && (d <=? 9) then digits_value rest (10 * acc + d)
      else None
  end.

(** [int] on the decimal numerals of the scenarios: digits, with an
    optional minus sign.  Every other text of the scenarios is rejected. *)
Definition int_of_numeral (s : string) : option Z :=
  match s with
  | EmptyString => None
  | String "-"%char EmptyString => None
  | String "-"%char rest => option_map Z.opp (digits_value rest 0)
  | _ => digits_value s 0
  end.

(** [strip] on the texts of the scenarios, none of which has blanks
    around it. *)
Definition strip_nothing (s : string) : string := s.

(** [json.loads] on two more texts, [[]] and [42], and on the texts of
    [loads_scenarios]. *)
Definition loads_more (s : string) : loads_outcome :=
  if String.eqb s "[]" then Loaded (JArr [])
  else if String.eqb s "42" then Loaded (JInt 42)
  else loads_scenarios s.

(** A snapshot whose second record is a number. *)
Definition odd_snapshot : SpeakerUp :=
  mkSpeakerUp [device_value 0 "Speakers" true; JInt 42;
               device_value 2 "Headset" false].

(** [-v 75 -d N] *)
Definition one_shot (volume device : Z) : arguments :=
  mkArguments (Some volume) (Some device) false false false false.

(** * Properties *)

Ltac py_unfold :=
  cbv [try_except bind ret raise diverge emit print get_devices set_devices
       loads result final trace].

(** ** Traces *)

Lemma os_calls_app (tr1 tr2 : list event) :
  os_calls (tr1 ++ tr2) = os_calls tr1 ++ os_calls tr2.
Proof.
  induction tr1 as [| [req | msg] tr1 IH]; simpl; [reflexivity | |].
  - now rewrite IH.
  - exact IH.
Qed.

Lemma printed_app (tr1 tr2 : list event) :
  printed (tr1 ++ tr2) = printed tr1 ++ printed tr2.
Proof.
  induction tr1 as [| [req | msg] tr1 IH]; simpl; [reflexivity | |].
  - exact IH.
  - now rewrite IH.
Qed.

(** ** The normalized fraction *)

Lemma percents_spec (volume : Z) :
  0 <= volume <= 100 -> In volume percents.
Proof.
  intros Hv. unfold percents.
  apply in_map_iff. exists (Z.to_nat volume). split.
  - lia.
  - apply in_seq. lia.
Qed.

Lemma fraction_checked :
  forallb (fun v => fraction_in_unit v && fraction_nearest v) percents = true.
Proof. vm_compute. reflexivity. Qed.

Lemma fraction_in_unit_ok (volume : Z) :
  0 <= volume <= 100 -> fraction_in_unit volume = true.
Proof.
  intros Hv. pose proof fraction_checked as H.
  rewrite forallb_forall in H.
  specialize (H volume (percents_spec volume Hv)).
  apply andb_prop in H. tauto.
Qed.

Lemma fraction_nearest_ok (volume : Z) :
  0 <= volume <= 100 -> fraction_nearest volume = true.
Proof.
  intros Hv. pose proof fraction_checked as H.
  rewrite forallb_forall in H.
  specialize (H volume (percents_spec volume Hv)).
  apply andb_prop in H. tauto.
Qed.

(** ** Name resolution reads only *)

Lemma subscript_pure (v : json) (key : string) (self : SpeakerUp) :
  final (subscript v key self) = self
  /\ trace (subscript v key self) = []
  /\ result (subscript v key self) <> Diverges
  /\ forall rc err,
       result (subscript v key self) <> Raises (CalledProcessError rc err).
Proof.
  unfold subscript.
  destruct v; try (cbn; repeat split; congruence).
  destruct (dict_lookup fields key); cbn; repeat split; congruence.
Qed.

Lemma resolve_device_name_pure (ds : list json) (device_index : option Z)
  (self : SpeakerUp) :
  final (resolve_device_name ds device_index self) = self
  /\ trace (resolve_device_name ds device_index self) = []
  /\ result (resolve_device_name ds device_index self) <> Diverges
  /\ forall rc err,
       result (resolve_device_name ds device_index self)
       <> Raises (CalledProcessError rc err).
Proof.
  unfold resolve_device_name.
  destruct device_index as [i |]; [| cbn; repeat split; congruence].
  destruct (i <? Z.of_nat (List.length ds));
    [| cbn; repeat split; congruence].
  destruct (py_index ds i) as [device |]; [apply subscript_pure |].
  cbn; repeat split; congruence.
Qed.

Section Unfoldings.

Variable os : run_request -> process.
Variable json_loads : string -> loads_outcome.

(** [get_audio_devices] by the cases of the operating system's answer. *)
Lemma get_audio_devices_cases (self : SpeakerUp) :
  get_audio_devices os json_loads self
  = match os query_request with
    | NotFound => fallback_result
    | NotPermitted =>
        mkResult (Raises PermissionError) self [OsCall query_request]
    | Undecodable _ =>
        mkResult (Raises UnicodeDecodeError) self [OsCall query_request]
    | Interrupted =>
        mkResult (Raises CallInterrupted) self [OsCall query_request]
    | NeverExits => mkResult Diverges self [OsCall query_request]
    | Exits rc out err =>
        if rc =? 0 then
          match json_loads out with
          | Loaded v =>
              mkResult (Returns true) (mkSpeakerUp (normalize v))
                [OsCall query_request]
          | Malformed => fallback_result
          | TooManyDigits =>
              mkResult (Raises LoadsValueError) self [OsCall query_request]
          | TooDeep =>
              mkResult (Raises RecursionError) self [OsCall query_request]
          end
        else fallback_result
    end.
Proof.
  unfold get_audio_devices, subprocess_run, _get_devices_fallback.
  fold query_request. py_unfold.
  destruct (os query_request) as [| | rc out err | rc | |]; cbn;
    try reflexivity.
  destruct (rc =? 0); cbn; [| reflexivity].
  destruct (json_loads out) as [v | | |]; cbn; reflexivity.
Qed.

(** [set_volume] past the range check, by the cases of the operating
    system's answer. *)
Lemma set_volume_cases (volume : Z) (device_index : option Z)
  (self : SpeakerUp) :
  0 <= volume <= 100 ->
  let req := volume_request volume device_index in
  set_volume os volume device_index self
  = match os req with
    | NotFound => mkResult (Raises FileNotFoundError) self [OsCall req]
    | NotPermitted => mkResult (Raises PermissionError) self [OsCall req]
    | Undecodable _ =>
        mkResult (Raises UnicodeDecodeError) self [OsCall req]
    | Interrupted => mkResult (Raises CallInterrupted) self [OsCall req]
    | NeverExits => mkResult Diverges self [OsCall req]
    | Exits rc out err =>
        if rc =? 0 then
          match result (resolve_device_name (devices self) device_index self)
          with
          | Returns name =>
              mkResult (Returns true) self
                [OsCall req; Print (MsgVolumeSet volume name)]
          | Raises e => mkResult (Raises e) self [OsCall req]
          | Diverges => mkResult Diverges self [OsCall req]
          end
        else
          mkResult (Returns false) self
            [OsCall req; Print (MsgErrorSetting err)]
    end.
Proof.
  intros Hv req.
  assert (Hguard : (volume <? 0) || (volume >? 100) = false).
  { apply orb_false_iff. split; [apply Z.ltb_ge; lia |].
    rewrite Z.gtb_ltb. apply Z.ltb_ge. lia. }
  unfold set_volume. rewrite Hguard.
  destruct (resolve_device_name_pure (devices self) device_index self)
    as (Hfinal & Htrace & _ & Hcpe).
  assert (Hrun :
            subprocess_run os req self
            = mkResult
                match os req with
                | NotFound => Raises FileNotFoundError
                | NotPermitted => Raises PermissionError
                | Undecodable _ => Raises UnicodeDecodeError
                | Interrupted => Raises CallInterrupted
                | NeverExits => Diverges
                | Exits rc out err =>
                    if rc =? 0 then Returns (mkCompleted rc out err)
                    else Raises (CalledProcessError rc err)
                end self [OsCall req]).
  { unfold subprocess_run, bind, emit. cbn [result final trace].
    destruct (os req) as [| | rc out err | rc | |]; try reflexivity.
    destruct (rc =? 0); reflexivity. }
  assert (Hrest :
            (ds <- get_devices ;;
             device_name <- resolve_device_name ds device_index ;;
             print (MsgVolumeSet volume device_name) ;;
             ret true) self
            = match
                result
                  (resolve_device_name (devices self) device_index self)
              with
              | Returns name =>
                  mkResult (Returns true) self
                    [Print (MsgVolumeSet volume name)]
              | Raises e => mkResult (Raises e) self []
              | Diverges => mkResult Diverges self []
              end).
  { cbv [bind get_devices print emit ret]. cbn [result final trace devices].
    destruct (resolve_device_name (devices self) device_index self)
      as [res fin tr].
    cbn [result final trace] in Hfinal, Htrace |- *. subst fin tr.
    destruct res as [name | e |]; reflexivity. }
  set (lookup := resolve_device_name (devices self) device_index self) in *.
  assert (Hbody :
            (subprocess_run os req ;;
             ds <- get_devices ;;
             device_name <- resolve_device_name ds device_index ;;
             print (MsgVolumeSet volume device_name) ;;
             ret true) self
            = match os req with
              | NotFound =>
                  mkResult (Raises FileNotFoundError) self [OsCall req]
              | NotPermitted =>
                  mkResult (Raises PermissionError) self [OsCall req]
              | Undecodable _ =>
                  mkResult (Raises UnicodeDecodeError) self [OsCall req]
              | Interrupted =>
                  mkResult (Raises CallInterrupted) self [OsCall req]
              | NeverExits => mkResult Diverges self [OsCall req]
              | Exits rc out err =>
                  if rc =? 0 then
                    match result lookup with
                    | Returns name =>
                        mkResult (Returns true) self
                          [OsCall req; Print (MsgVolumeSet volume name)]
                    | Raises e => mkResult (Raises e) self [OsCall req]
                    | Diverges => mkResult Diverges self [OsCall req]
                    end
                  else
                    mkResult (Raises (CalledProcessError rc err)) self
                      [OsCall req]
              end).
  { unfold bind at 1. rewrite Hrun. cbn [result final trace].
    destruct (os req) as [| | rc out err | rc | |]; try reflexivity.
    destruct (rc =? 0); [| reflexivity].
    rewrite Hrest. destruct (result lookup); reflexivity. }
  unfold try_except. cbv zeta.
  change (powershell
            match device_index with
            | Some i => SetDeviceVolume i (volume_fraction volume)
            | None => SetDefaultVolume (volume_fraction volume)
            end) with req.
  rewrite Hbody.
  destruct (os req) as [| | rc out err | rc | |]; try reflexivity.
  destruct (rc =? 0); [| reflexivity].
  destruct (result lookup) as [name | e |]; try reflexivity.
  destruct e; try reflexivity.
  now elim (Hcpe returncode0 stderr0).
Qed.

End Unfoldings.

(** ** Name resolution *)

Lemma resolve_absent_target (ds : list json) (self : SpeakerUp) :
  resolve_device_name ds None self
  = mkResult (Returns (JStr "Default Device")) self [].
Proof. reflexivity. Qed.

Lemma resolve_beyond_snapshot (ds : list json) (i : Z) (self : SpeakerUp) :
  Z.of_nat (List.length ds) <= i ->
  resolve_device_name ds (Some i) self
  = mkResult (Returns (JStr "Default Device")) self [].
Proof.
  intros Hi. unfold resolve_device_name.
  replace (i <? Z.of_nat (List.length ds)) with false; [reflexivity |].
  symmetry. apply Z.ltb_ge. exact Hi.
Qed.

Lemma resolve_in_snapshot (ds : list json) (i : Z) (device name : json)
  (self : SpeakerUp) :
  0 <= i ->
  nth_error ds (Z.to_nat i) = Some device ->
  device_field device "Name" = Some name ->
  resolve_device_name ds (Some i) self = mkResult (Returns name) self [].
Proof.
  intros Hi Hnth Hname. unfold resolve_device_name.
  assert (Hlt : (i <? Z.of_nat (List.length ds)) = true).
  { apply Z.ltb_lt.
    assert (Hn : (Z.to_nat i < List.length ds)%nat)
      by (apply nth_error_Some; congruence).
    lia. }
  rewrite Hlt. unfold py_index.
  replace (i <? 0) with false by (symmetry; apply Z.ltb_ge; exact Hi).
  rewrite Hnth. destruct device; try discriminate.
  cbn in Hname |- *. rewrite Hname. reflexivity.
Qed.

Lemma resolve_below_snapshot (ds : list json) (i : Z) (self : SpeakerUp) :
  i < - Z.of_nat (List.length ds) ->
  resolve_device_name ds (Some i) self = mkResult (Raises IndexError) self [].
Proof.
  intros Hi. unfold resolve_device_name, py_index.
  replace (i <? Z.of_nat (List.length ds)) with true
    by (symmetry; apply Z.ltb_lt; lia).
  replace (i <? 0) with true by (symmetry; apply Z.ltb_lt; lia).
  replace (0 <=? Z.of_nat (List.length ds) + i) with false
    by (symmetry; apply Z.leb_gt; lia).
  reflexivity.
Qed.

(** ** Volume control *)

Section VolumeController.

Variable os : run_request -> process.

(** The branch of the range check. *)
Lemma set_volume_rejected (volume : Z) (device_index : option Z)
  (self : SpeakerUp) :
  (volume <? 0) || (volume >? 100) = true ->
  set_volume os volume device_index self
  = mkResult (Returns false) self [Print MsgVolumeRange].
Proof. intros Hguard. unfold set_volume. rewrite Hguard. reflexivity. Qed.

(** C1: a percent below 0 or above 100 is rejected, whatever the target:
    [set_volume] returns [False], prints the range message and issues no
    OS call; the snapshot is left as it was. *)
Theorem set_volume_out_of_range (volume : Z) (device_index : option Z)
  (self : SpeakerUp) :
  volume < 0 \/ volume > 100 ->
  set_volume os volume device_index self
  = mkResult (Returns false) self [Print MsgVolumeRange]
  /\ os_calls (trace (set_volume os volume device_index self)) = [].
Proof.
  intros Hrange.
  assert (Hguard : (volume <? 0) || (volume >? 100) = true).
  { apply orb_true_iff. destruct Hrange as [Hlo | Hhi].
    - left. now apply Z.ltb_lt.
    - right. apply Z.gtb_lt. lia. }
  rewrite (set_volume_rejected volume device_index self Hguard).
  split; reflexivity.
Qed.

(** Past the range check [set_volume] issues its request and nothing else. *)
Lemma set_volume_calls (volume : Z) (device_index : option Z)
  (self : SpeakerUp) :
  0 <= volume <= 100 ->
  os_calls (trace (set_volume os volume device_index self))
  = [volume_request volume device_index].
Proof.
  intros Hv. rewrite (set_volume_cases os volume device_index self Hv).
  cbv zeta.
  destruct (os (volume_request volume device_index))
    as [| | rc out err | rc | |];
    try reflexivity.
  destruct (rc =? 0); [| reflexivity].
  destruct (result (resolve_device_name (devices self) device_index self));
    reflexivity.
Qed.

(** C5: for a percent in [0, 100] [set_volume] issues exactly one OS call,
    never the range rejection; the level in the script is [volume / 100]
    whether the target is an index or absent, it lies in [0.0, 1.0] and is
    the double nearest to the quotient. *)
Theorem set_volume_in_range (volume : Z) (device_index : option Z)
  (self : SpeakerUp) :
  0 <= volume <= 100 ->
  let run := set_volume os volume device_index self in
  let level := volume_fraction volume in
  os_calls (trace run) = [volume_request volume device_index]
  /\ ~ In MsgVolumeRange (printed (trace run))
  /\ script_level (script (volume_request volume device_index)) = Some level
  /\ PrimFloat.leb 0%float level = true
  /\ PrimFloat.leb level 1%float = true
  /\ exists q : Q,
       float_value level = Some q
       /\ (Qabs (q - Qmake volume 100) <= Qpower 2 (-54))%Q.
Proof.
  intros Hv run level. subst run level.
  split; [apply set_volume_calls; exact Hv |].
  split.
  { rewrite (set_volume_cases os volume device_index self Hv). cbv zeta.
    destruct (os (volume_request volume device_index))
    as [| | rc out err | rc | |];
      cbn; try tauto.
    destruct (rc =? 0); cbn.
    - destruct (result
                  (resolve_device_name (devices self) device_index self));
        cbn; try tauto.
      intros [H | []]. discriminate.
    - intros [H | []]. discriminate. }
  split; [destruct device_index; reflexivity |].
  pose proof (fraction_in_unit_ok volume Hv) as Hunit.
  apply andb_prop in Hunit. destruct Hunit as [Hlo Hhi].
  split; [exact Hlo |]. split; [exact Hhi |].
  pose proof (fraction_nearest_ok volume Hv) as Hnear.
  unfold fraction_nearest in Hnear.
  destruct (float_value (volume_fraction volume)) as [q |]; [| discriminate].
  exists q. split; [reflexivity |].
  apply Qle_bool_iff. exact Hnear.
Qed.

(** C2, as the code has it: [set_volume] does not compare the index with
    the snapshot.  For a percent in [0, 100] and an index at or past the
    end of the list it issues exactly one OS call, whose script names that
    index; when the script exits with status 0 the method returns [True]
    and acknowledges under the label "Default Device". *)
Theorem set_volume_unlisted_index (volume i : Z) (self : SpeakerUp) :
  0 <= volume <= 100 ->
  Z.of_nat (List.length (devices self)) <= i ->
  let req := powershell (SetDeviceVolume i (volume_fraction volume)) in
  os_calls (trace (set_volume os volume (Some i) self)) = [req]
  /\ forall out err,
       os req = Exits 0 out err ->
       set_volume os volume (Some i) self
       = mkResult (Returns true) self
           [OsCall req; Print (MsgVolumeSet volume (JStr "Default Device"))].
Proof.
  intros Hv Hi req. split.
  - apply (set_volume_calls volume (Some i) self Hv).
  - intros out err Hos.
    rewrite (set_volume_cases os volume (Some i) self Hv). cbv zeta.
    change (volume_request volume (Some i)) with req.
    rewrite Hos. cbn [Z.eqb].
    rewrite (resolve_beyond_snapshot (devices self) i self Hi).
    reflexivity.
Qed.

(** The acknowledgment of a successful call, for a target that names an
    entry of the snapshot which has a name. *)
Lemma set_volume_ack_listed (volume i : Z) (self : SpeakerUp)
  (device name : json) (out err : string) :
  0 <= volume <= 100 ->
  0 <= i ->
  nth_error (devices self) (Z.to_nat i) = Some device ->
  device_field device "Name" = Some name ->
  os (volume_request volume (Some i)) = Exits 0 out err ->
  set_volume os volume (Some i) self
  = mkResult (Returns true) self
      [OsCall (volume_request volume (Some i));
       Print (MsgVolumeSet volume name)].
Proof.
  intros Hv Hi Hnth Hname Hos.
  rewrite (set_volume_cases os volume (Some i) self Hv). cbv zeta.
  rewrite Hos. cbn [Z.eqb].
  rewrite (resolve_in_snapshot (devices self) i device name self Hi Hnth Hname).
  reflexivity.
Qed.

(** An index below [-len(self.devices)] gets past the guard of the name
    lookup: the script has run when [IndexError] is raised. *)
Lemma set_volume_below_snapshot (volume i : Z) (self : SpeakerUp)
  (out err : string) :
  0 <= volume <= 100 ->
  i < - Z.of_nat (List.length (devices self)) ->
  os (volume_request volume (Some i)) = Exits 0 out err ->
  set_volume os volume (Some i) self
  = mkResult (Raises IndexError) self
      [OsCall (volume_request volume (Some i))].
Proof.
  intros Hv Hi Hos.
  rewrite (set_volume_cases os volume (Some i) self Hv). cbv zeta.
  rewrite Hos. cbn [Z.eqb].
  rewrite (resolve_below_snapshot (devices self) i self Hi).
  reflexivity.
Qed.

(** The acknowledgment of a successful call on the default endpoint. *)
Lemma set_volume_ack_default (volume : Z) (self : SpeakerUp)
  (out err : string) :
  0 <= volume <= 100 ->
  os (volume_request volume None) = Exits 0 out err ->
  set_volume os volume None self
  = mkResult (Returns true) self
      [OsCall (volume_request volume None);
       Print (MsgVolumeSet volume (JStr "Default Device"))].
Proof.
  intros Hv Hos.
  rewrite (set_volume_cases os volume None self Hv). cbv zeta.
  rewrite Hos. reflexivity.
Qed.

(** C10: [set_volume] leaves the snapshot as it found it, for every percent
    and target and on every outcome. *)
Theorem set_volume_keeps_devices (volume : Z) (device_index : option Z)
  (self : SpeakerUp) :
  final (set_volume os volume device_index self) = self
  /\ devices (final (set_volume os volume device_index self)) = devices self.
Proof.
  assert (Hfinal : final (set_volume os volume device_index self) = self).
  { destruct ((volume <? 0) || (volume >? 100)) eqn:Hguard.
    { now rewrite (set_volume_rejected volume device_index self Hguard). }
    apply orb_false_iff in Hguard. destruct Hguard as [Hlo Hhi].
    apply Z.ltb_ge in Hlo. rewrite Z.gtb_ltb in Hhi. apply Z.ltb_ge in Hhi.
    rewrite (set_volume_cases os volume device_index self) by lia.
    cbv zeta.
    destruct (os (volume_request volume device_index))
    as [| | rc out err | rc | |];
      try reflexivity.
    destruct (rc =? 0); [| reflexivity].
    destruct (result (resolve_device_name (devices self) device_index self));
      reflexivity. }
  split; [exact Hfinal | now rewrite Hfinal].
Qed.

End VolumeController.

(** ** Device directory *)

Lemma normalize_single (v : json) :
  is_list v = false -> normalize v = [v].
Proof. intros Hv. unfold normalize. now rewrite Hv. Qed.

Lemma normalize_list (items : list json) :
  normalize (JArr items) = items.
Proof. reflexivity. Qed.

Section DeviceDirectory.

Variable os : run_request -> process.
Variable json_loads : string -> loads_outcome.

Abbreviation enumerate := (get_audio_devices os json_loads).
Abbreviation show := (list_devices os json_loads).

Lemma get_audio_devices_fallback (self : SpeakerUp) :
  primary_failure os json_loads -> enumerate self = fallback_result.
Proof.
  intros Hfail. rewrite get_audio_devices_cases.
  destruct Hfail as [Habsent | rc out err Hexit Hrc | out err Hexit Hloads];
    rewrite ?Habsent, ?Hexit; try reflexivity.
  - replace (rc =? 0) with false; [reflexivity |].
    symmetry. now apply Z.eqb_neq.
  - cbn [Z.eqb]. now rewrite Hloads.
Qed.

Lemma get_audio_devices_decoded (self : SpeakerUp) (out err : string)
  (v : json) :
  os query_request = Exits 0 out err ->
  json_loads out = Loaded v ->
  enumerate self
  = mkResult (Returns true) (mkSpeakerUp (normalize v)) [OsCall query_request].
Proof.
  intros Hexit Hloads. rewrite get_audio_devices_cases, Hexit.
  cbn [Z.eqb]. now rewrite Hloads.
Qed.

Lemma stopped_not_returns (o : outcome bool) (b : bool) :
  stopped o -> o <> Returns b.
Proof. intros [-> | (e & -> & _)]; discriminate. Qed.

(** Either the call does not return (the query blocks, or raises what is
    not caught) and leaves the state as it was, or it returns [True] with
    a list that the operating system's answer alone decides. *)
Lemma get_audio_devices_shape :
  (exists o, stopped o
             /\ forall self,
                  enumerate self = mkResult o self [OsCall query_request])
  \/ (exists ds, forall self,
        enumerate self
        = mkResult (Returns true) (mkSpeakerUp ds) [OsCall query_request]).
Proof.
  assert (Hraises : forall e,
            escapes_enumeration e ->
            (forall self, enumerate self
                          = mkResult (Raises e) self [OsCall query_request]) ->
            exists o, stopped o
                      /\ forall self,
                           enumerate self
                           = mkResult o self [OsCall query_request]).
  { intros e He Hall. exists (Raises e). split; [| exact Hall].
    right. now exists e. }
  unfold escapes_enumeration in Hraises.
  destruct (os query_request) as [| | rc out err | rc | |] eqn:Hos.
  - right. exists [fallback_device]. intros self.
    rewrite get_audio_devices_cases, Hos. reflexivity.
  - left. apply (Hraises PermissionError); [tauto |]. intros self.
    rewrite get_audio_devices_cases, Hos. reflexivity.
  - destruct (rc =? 0) eqn:Hrc.
    + destruct (json_loads out) as [v | | |] eqn:Hloads.
      * right. exists (normalize v). intros self.
        rewrite get_audio_devices_cases, Hos, Hrc, Hloads. reflexivity.
      * right. exists [fallback_device]. intros self.
        rewrite get_audio_devices_cases, Hos, Hrc, Hloads. reflexivity.
      * left. apply (Hraises LoadsValueError); [tauto |]. intros self.
        rewrite get_audio_devices_cases, Hos, Hrc, Hloads. reflexivity.
      * left. apply (Hraises RecursionError); [tauto |]. intros self.
        rewrite get_audio_devices_cases, Hos, Hrc, Hloads. reflexivity.
    + right. exists [fallback_device]. intros self.
      rewrite get_audio_devices_cases, Hos, Hrc. reflexivity.
  - left. apply (Hraises UnicodeDecodeError); [tauto |]. intros self.
    rewrite get_audio_devices_cases, Hos. reflexivity.
  - left. exists Diverges. split; [now left |]. intros self.
    rewrite get_audio_devices_cases, Hos. reflexivity.
  - left. apply (Hraises CallInterrupted); [tauto |]. intros self.
    rewrite get_audio_devices_cases, Hos. reflexivity.
Qed.


(** C4: a decoded answer that is a single object becomes the one-element
    list holding it; a decoded list is stored as it is, element by element
    and in order, default flags included.  Neither is taken for a
    failure: the call returns [True] after its one query. *)
Theorem single_object_normalized (self : SpeakerUp) (out err : string)
  (v : json) :
  os query_request = Exits 0 out err ->
  json_loads out = Loaded v ->
  (is_list v = false ->
   enumerate self
   = mkResult (Returns true) (mkSpeakerUp [v]) [OsCall query_request])
  /\ (forall items, v = JArr items ->
      enumerate self
      = mkResult (Returns true) (mkSpeakerUp items) [OsCall query_request]
      /\ map device_is_default (devices (final (enumerate self)))
         = map device_is_default items).
Proof.
  intros Hexit Hloads.
  pose proof (get_audio_devices_decoded self out err v Hexit Hloads) as Henum.
  split.
  - intros Hsingle. rewrite Henum, (normalize_single v Hsingle). reflexivity.
  - intros items ->. rewrite Henum, normalize_list. split; reflexivity.
Qed.

(** C9, as the code has it: the enumeration stores the default flags as the
    operating system reports them.  When the decoded answer marks at most
    one device as default, so does the list an enumeration produces; the
    fallback list marks exactly one. *)
Theorem at_most_one_default (self : SpeakerUp) :
  (forall out err v,
     os query_request = Exits 0 out err -> json_loads out = Loaded v ->
     (count_defaults (normalize v) <= 1)%nat) ->
  (forall ok, result (enumerate self) = Returns ok ->
     (count_defaults (devices (final (enumerate self))) <= 1)%nat)
  /\ count_defaults [fallback_device] = 1%nat.
Proof.
  intros Hreported. split; [| reflexivity].
  intros ok. rewrite get_audio_devices_cases.
  destruct (os query_request) as [| | rc out err | rc | |] eqn:Hos; cbn;
    try discriminate.
  - intros _. apply Nat.le_refl.
  - destruct (rc =? 0) eqn:Hrc; cbn; [| intros _; apply Nat.le_refl].
    apply Z.eqb_eq in Hrc. subst rc.
    destruct (json_loads out) as [v | | |] eqn:Hloads; cbn;
      try discriminate.
    + intros _. exact (Hreported out err v eq_refl Hloads).
    + intros _. apply Nat.le_refl.
Qed.

(** *** Showing the list *)

Lemma print_devices_frame (ds : list json) (i : Z) (self : SpeakerUp) :
  final (print_devices i ds self) = self.
Proof.
  revert i. induction ds as [| device rest IH]; intros i; [reflexivity |].
  cbn [print_devices]. unfold bind at 1.
  destruct device; try reflexivity.
  unfold dict_get.
  destruct (dict_lookup fields "Default") as [flag |];
    cbn [ret result final trace];
    unfold bind at 1; unfold subscript;
    (destruct (dict_lookup fields "Name") as [name |];
     [| reflexivity]);
    cbn [ret result final trace];
    unfold bind at 1; cbn [print emit result final trace];
    apply IH.
Qed.

Lemma display_devices_frame (self : SpeakerUp) :
  final (display_devices self) = self.
Proof.
  unfold display_devices.
  cbv [bind print emit get_devices]. cbn [result final trace].
  pose proof (print_devices_frame (devices self) 0 self) as Hframe.
  destruct (print_devices 0 (devices self) self) as [res fin tr].
  cbn in Hframe |- *. subst fin.
  destruct res; reflexivity.
Qed.

Lemma list_devices_cached (self : SpeakerUp) :
  devices self <> [] -> show self = display_devices self.
Proof.
  intros Hcached. unfold list_devices. cbv [bind get_devices].
  cbn [result final trace].
  destruct (devices self) as [| d ds]; [now elim Hcached |].
  cbn [ret result final trace negb].
  destruct (display_devices self) as [res fin tr]. reflexivity.
Qed.

Lemma list_devices_enumerated (ds : list json) :
  enumerate (mkSpeakerUp [])
  = mkResult (Returns true) (mkSpeakerUp ds) [OsCall query_request] ->
  show (mkSpeakerUp [])
  = mkResult (result (display_devices (mkSpeakerUp ds)))
      (final (display_devices (mkSpeakerUp ds)))
      (OsCall query_request :: trace (display_devices (mkSpeakerUp ds))).
Proof.
  intros Henum. unfold list_devices. cbv [bind get_devices].
  cbn [result final trace devices]. rewrite Henum.
  cbn [result final trace negb]. reflexivity.
Qed.

Lemma list_devices_blocked (o : outcome bool) :
  stopped o ->
  enumerate (mkSpeakerUp [])
  = mkResult o (mkSpeakerUp []) [OsCall query_request] ->
  show (mkSpeakerUp [])
  = mkResult o (mkSpeakerUp []) [OsCall query_request].
Proof.
  intros Ho Henum. unfold list_devices. cbv [bind get_devices].
  cbn [result final trace devices]. rewrite Henum.
  destruct Ho as [-> | (e & -> & _)]; reflexivity.
Qed.

(** C8: with the operating system answering the same request the same way,
    a second [list_devices] ends as the first did: the same return value,
    the same device list and the same lines shown; and re-running the
    enumeration itself changes nothing, trace included. *)
Theorem list_devices_idempotent (self : SpeakerUp) :
  let first := show self in
  let second := show (final first) in
  result second = result first
  /\ devices (final second) = devices (final first)
  /\ printed (trace second) = printed (trace first)
  /\ enumerate (final (enumerate self)) = enumerate self.
Proof.
  cbv zeta.
  assert (Hshow : result (show (final (show self))) = result (show self)
                  /\ final (show (final (show self))) = final (show self)
                  /\ printed (trace (show (final (show self))))
                     = printed (trace (show self))).
  { destruct self as [[| d ds]].
    - destruct get_audio_devices_shape
        as [(o & Ho & Hblocked) | [ds' Hdone]].
      + rewrite (list_devices_blocked o Ho (Hblocked _)). cbn [final].
        rewrite (list_devices_blocked o Ho (Hblocked _)). repeat split.
      + rewrite (list_devices_enumerated ds' (Hdone _)). cbn [final].
        rewrite display_devices_frame.
        destruct ds' as [| d' ds''].
        * rewrite (list_devices_enumerated [] (Hdone _)).
          cbn [result final trace]. rewrite display_devices_frame.
          repeat split.
        * rewrite (list_devices_cached (mkSpeakerUp (d' :: ds'')))
            by (cbn; discriminate).
          cbn [result final trace printed].
          rewrite display_devices_frame. repeat split.
    - assert (Hcached : show (mkSpeakerUp (d :: ds))
                        = display_devices (mkSpeakerUp (d :: ds)))
        by (apply list_devices_cached; cbn; discriminate).
      rewrite Hcached, display_devices_frame, Hcached, display_devices_frame.
      repeat split. }
  destruct Hshow as (Hres & Hfin & Hprinted).
  split; [exact Hres |]. split; [now rewrite Hfin |].
  split; [exact Hprinted |].
  destruct get_audio_devices_shape as [(o & Ho & Hblocked) | [ds' Hdone]].
  - rewrite (Hblocked self). cbn [final]. apply Hblocked.
  - rewrite !Hdone. reflexivity.
Qed.

End DeviceDirectory.


(** ** Scenarios *)

(** A list of two devices is shown in the order reported, the first one
    marked as default. *)
Example scenario_two_devices :
  list_devices (os_prints two_devices_text) loads_scenarios init
  = mkResult (Returns true) two_devices
      [OsCall query_request; Print MsgDevicesHeader; Print MsgRule;
       Print (MsgDeviceLine 1 (JStr "Speakers") true);
       Print (MsgDeviceLine 2 (JStr "Headset") false);
       Print MsgRule].
Proof. vm_compute. reflexivity. Qed.

(** A single object, not wrapped in a list, gives a one-element list. *)
Example scenario_single_object :
  list_devices (os_prints one_device_text) loads_scenarios init
  = mkResult (Returns true) (mkSpeakerUp [device_value 0 "Speakers" true])
      [OsCall query_request; Print MsgDevicesHeader; Print MsgRule;
       Print (MsgDeviceLine 1 (JStr "Speakers") true);
       Print MsgRule].
Proof. vm_compute. reflexivity. Qed.

(** Half volume on the default endpoint, with no snapshot. *)
Example scenario_half_volume :
  set_volume os_quiet 50 None init
  = mkResult (Returns true) init
      [OsCall (powershell (SetDefaultVolume 0.5%float));
       Print (MsgVolumeSet 50 (JStr "Default Device"))].
Proof. vm_compute. reflexivity. Qed.

(** With a snapshot, an index inside it is acknowledged under its name. *)
Example scenario_named_device :
  set_volume os_quiet 75 (Some 1) two_devices
  = mkResult (Returns true) two_devices
      [OsCall (powershell (SetDeviceVolume 1 0.75%float));
       Print (MsgVolumeSet 75 (JStr "Headset"))].
Proof. vm_compute. reflexivity. Qed.

(** A failing script is reported with its diagnostic. *)
Example scenario_platform_rejected :
  set_volume os_fails 50 None init
  = mkResult (Returns false) init
      [OsCall (powershell (SetDefaultVolume 0.5%float));
       Print (MsgErrorSetting "Get-AudioDevice : command not recognized")].
Proof. vm_compute. reflexivity. Qed.

(** ** Instances *)

Lemma set_volume_out_of_range_witness :
  (150 < 0 \/ 150 > 100)
  /\ set_volume os_quiet 150 None init
     = mkResult (Returns false) init [Print MsgVolumeRange]
  /\ os_calls (trace (set_volume os_quiet 150 None init)) = [].
Proof.
  split; [right; lia |].
  apply (set_volume_out_of_range os_quiet 150 None init). right. lia.
Defined.

Lemma set_volume_in_range_witness :
  0 <= 50 <= 100
  /\ os_calls (trace (set_volume os_quiet 50 None init))
     = [volume_request 50 None]
  /\ PrimFloat.leb (volume_fraction 50) 1%float = true.
Proof.
  split; [lia |].
  destruct (set_volume_in_range os_quiet 50 None init ltac:(lia))
    as (Hcalls & _ & _ & _ & Hhi & _).
  split; [exact Hcalls | exact Hhi].
Defined.

Lemma set_volume_unlisted_index_witness :
  0 <= 50 <= 100
  /\ Z.of_nat (List.length (devices two_devices)) <= 7
  /\ set_volume os_quiet 50 (Some 7) two_devices
     = mkResult (Returns true) two_devices
         [OsCall (powershell (SetDeviceVolume 7 (volume_fraction 50)));
          Print (MsgVolumeSet 50 (JStr "Default Device"))].
Proof.
  split; [lia |]. split; [simpl; lia |].
  destruct (set_volume_unlisted_index os_quiet 50 7 two_devices)
    as [_ Hack]; [lia | simpl; lia |].
  apply (Hack "" ""). reflexivity.
Defined.


Lemma single_object_normalized_witness :
  os_prints one_device_text query_request = Exits 0 one_device_text ""
  /\ loads_scenarios one_device_text = Loaded (device_value 0 "Speakers" true)
  /\ get_audio_devices (os_prints one_device_text) loads_scenarios init
     = mkResult (Returns true) (mkSpeakerUp [device_value 0 "Speakers" true])
         [OsCall query_request].
Proof.
  split; [reflexivity |]. split; [reflexivity |].
  destruct (single_object_normalized (os_prints one_device_text)
              loads_scenarios init one_device_text ""
              (device_value 0 "Speakers" true)) as [Hsingle _];
    [reflexivity | reflexivity |].
  apply Hsingle. reflexivity.
Defined.


Lemma at_most_one_default_witness :
  (forall out err v,
     os_prints two_devices_text query_request = Exits 0 out err ->
     loads_scenarios out = Loaded v ->
     (count_defaults (normalize v) <= 1)%nat)
  /\ (count_defaults
        (devices
           (final
              (get_audio_devices (os_prints two_devices_text)
                 loads_scenarios init))) <= 1)%nat.
Proof.
  assert (Hreported :
    forall out err v,
      os_prints two_devices_text query_request = Exits 0 out err ->
      loads_scenarios out = Loaded v ->
      (count_defaults (normalize v) <= 1)%nat).
  { intros out err v Hexit Hloads.
    injection Hexit as Hout _. subst out.
    vm_compute in Hloads. injection Hloads as Hv. subst v.
    vm_compute. apply le_n. }
  split; [exact Hreported |].
  destruct (at_most_one_default (os_prints two_devices_text) loads_scenarios
              init Hreported) as [Hproduced _].
  apply (Hproduced true). reflexivity.
Defined.

(** ** Where the code departs from the stated behaviour *)

(** An index past the end of the snapshot still reaches the operating
    system, and the call is reported as a success. *)
Lemma unlisted_index_reaches_os :
  ~ (0 <= 7 < Z.of_nat (List.length (devices two_devices)))
  /\ set_volume os_quiet 50 (Some 7) two_devices
     = mkResult (Returns true) two_devices
         [OsCall (powershell (SetDeviceVolume 7 0.5%float));
          Print (MsgVolumeSet 50 (JStr "Default Device"))]
  /\ List.length
       (os_calls (trace (set_volume os_quiet 50 (Some 7) two_devices)))
     = 1%nat.
Proof.
  split; [simpl; lia |]. split; vm_compute; reflexivity.
Qed.



(** An answer that marks two devices as default is stored as it is. *)
Lemma two_defaults_enumerated :
  get_audio_devices (os_prints two_defaults_text) loads_scenarios init
  = mkResult (Returns true)
      (mkSpeakerUp [device_value 0 "Speakers" true;
                    device_value 1 "Headset" true])
      [OsCall query_request]
  /\ count_defaults
       (devices
          (final
             (get_audio_devices (os_prints two_defaults_text)
                loads_scenarios init)))
     = 2%nat.
Proof. split; vm_compute; reflexivity. Qed.

(** C7: with no snapshot and the index [-1] (what [-d 0] gives on the
    command line), the script exits with status 0 and [set_volume] then
    raises [IndexError] instead of acknowledging under "Default Device":
    the guard [device_index < len(self.devices)] lets a negative index
    through to [self.devices[device_index]]. *)
Theorem negative_index_raises :
  set_volume os_quiet 50 (Some (-1)) init
  = mkResult (Raises IndexError) init
      [OsCall (powershell (SetDeviceVolume (-1) 0.5%float))]
  /\ set_volume os_quiet 50 (Some 0) init
     = mkResult (Returns true) init
         [OsCall (powershell (SetDeviceVolume 0 0.5%float));
          Print (MsgVolumeSet 50 (JStr "Default Device"))].
Proof. split; vm_compute; reflexivity. Qed.

(** * Further properties of the methods *)

(** ** What [list_devices] prints *)

Lemma listing_error_named (device : json) :
  listing_error device = None ->
  exists fields name,
    device = JObj fields /\ dict_lookup fields "Name" = Some name.
Proof.
  destruct device; try discriminate. cbn.
  destruct (dict_lookup fields "Name") as [name |] eqn:Hname;
    [| discriminate].
  intros _. now exists fields, name.
Qed.

(** One turn of the loop on a record that has a name. *)
Lemma print_devices_named (fields : list (string * json)) (name : json)
  (rest : list json) (i : Z) (self : SpeakerUp) :
  dict_lookup fields "Name" = Some name ->
  print_devices i (JObj fields :: rest) self
  = mkResult
      (result (print_devices (i + 1) rest self))
      (final (print_devices (i + 1) rest self))
      (Print (MsgDeviceLine (i + 1) name (device_is_default (JObj fields)))
       :: trace (print_devices (i + 1) rest self)).
Proof.
  intros Hname. cbn [print_devices]. unfold dict_get, subscript.
  rewrite Hname. unfold device_is_default.
  destruct (dict_lookup fields "Default") as [flag |];
    cbv [bind ret print emit]; cbn [result final trace app];
    destruct (print_devices (i + 1) rest self) as [res fin tr];
    cbn [result final trace app]; destruct res; reflexivity.
Qed.

(** The loop prints the line of each record that has a name, and goes on
    with the records that follow. *)
Lemma print_devices_app (good rest : list json) (k : nat) (self : SpeakerUp) :
  Forall (fun d => listing_error d = None) good ->
  print_devices (Z.of_nat k) (good ++ rest) self
  = mkResult
      (result (print_devices (Z.of_nat (k + List.length good)) rest self))
      (final (print_devices (Z.of_nat (k + List.length good)) rest self))
      (map Print (device_lines k good)
       ++ trace (print_devices (Z.of_nat (k + List.length good)) rest self)).
Proof.
  intros Hgood. revert k.
  induction Hgood as [| device good Hdevice Hgood IH]; intros k.
  - change ([] ++ rest) with rest.
    change (List.length (@nil json)) with 0%nat. rewrite Nat.add_0_r.
    destruct (print_devices (Z.of_nat k) rest self); reflexivity.
  - destruct (listing_error_named device Hdevice)
      as (fields & name & -> & Hname).
    cbn [device_lines device_field]. rewrite Hname.
    change ((JObj fields :: good) ++ rest)
      with (JObj fields :: (good ++ rest)).
    rewrite (print_devices_named fields name (good ++ rest) _ self Hname).
    replace (Z.of_nat k + 1) with (Z.of_nat (S k)) by lia.
    rewrite (IH (S k)). cbn [result final trace map app List.length].
    replace (k + S (List.length good))%nat
      with (S k + List.length good)%nat by lia.
    unfold device_line.
    replace (Z.of_nat k + 1) with (Z.of_nat (S k)) by lia.
    reflexivity.
Qed.

Lemma print_devices_stops (device : json) (rest : list json) (i : Z)
  (self : SpeakerUp) (e : exn) :
  listing_error device = Some e ->
  print_devices i (device :: rest) self = mkResult (Raises e) self [].
Proof.
  intros Herr. cbn [print_devices]. unfold bind at 1.
  destruct device; cbn in Herr; try (injection Herr as <-; reflexivity).
  destruct (dict_lookup fields "Name") as [name |] eqn:Hname;
    [discriminate |].
  injection Herr as <-.
  unfold dict_get.
  destruct (dict_lookup fields "Default") as [flag |];
    cbn [ret result final trace];
    unfold bind at 1; unfold subscript; rewrite Hname; reflexivity.
Qed.

Lemma device_lines_length (ds : list json) (k : nat) :
  Forall (fun d => listing_error d = None) ds ->
  List.length (device_lines k ds) = List.length ds.
Proof.
  intros Hnamed. revert k.
  induction Hnamed as [| device ds Hdevice Hnamed IH]; intros k;
    [reflexivity |].
  destruct (listing_error_named device Hdevice)
    as (fields & name & -> & Hname).
  cbn [device_lines device_field List.length]. rewrite Hname.
  cbn [List.length]. now rewrite IH.
Qed.

Lemma device_lines_nth (ds : list json) (k j : nat) (device name : json) :
  Forall (fun d => listing_error d = None) ds ->
  nth_error ds j = Some device ->
  device_field device "Name" = Some name ->
  nth_error (device_lines k ds) j = Some (device_line (k + j) device name).
Proof.
  intros Hnamed. revert k j.
  induction Hnamed as [| d ds Hd Hnamed IH]; intros k j Hnth Hname.
  - destruct j; discriminate.
  - destruct (listing_error_named d Hd) as (fields & name' & -> & Hname').
    cbn [device_lines device_field]. rewrite Hname'.
    destruct j as [| j].
    + injection Hnth as <-. cbn in Hname. rewrite Hname' in Hname.
      injection Hname as ->. cbn [nth_error]. now rewrite Nat.add_0_r.
    + cbn [nth_error] in Hnth |- *.
      rewrite (IH (S k) j Hnth Hname).
      now replace (S k + j)%nat with (k + S j)%nat by lia.
Qed.

Lemma printed_prints (msgs : list message) :
  printed (map Print msgs) = msgs.
Proof. induction msgs as [| m msgs IH]; cbn; [reflexivity | now rewrite IH]. Qed.

Lemma os_calls_prints (msgs : list message) :
  os_calls (map Print msgs) = [].
Proof. induction msgs as [| m msgs IH]; cbn; [reflexivity | exact IH]. Qed.

(** The loop issues no OS call, whatever the records are. *)
Lemma print_devices_calls (ds : list json) (i : Z) (self : SpeakerUp) :
  os_calls (trace (print_devices i ds self)) = [].
Proof.
  revert i. induction ds as [| device rest IH]; intros i; [reflexivity |].
  destruct (listing_error device) as [e |] eqn:Herr.
  - now rewrite (print_devices_stops device rest i self e Herr).
  - destruct (listing_error_named device Herr)
      as (fields & name & -> & Hname).
    rewrite (print_devices_named fields name rest i self Hname).
    cbn [trace os_calls]. apply IH.
Qed.

(** [display_devices] in terms of the loop. *)
Lemma display_devices_cases (self : SpeakerUp) :
  display_devices self
  = match result (print_devices 0 (devices self) self) with
    | Returns _ =>
        mkResult (Returns true) self
          (Print MsgDevicesHeader :: Print MsgRule
           :: trace (print_devices 0 (devices self) self) ++ [Print MsgRule])
    | Raises e =>
        mkResult (Raises e) self
          (Print MsgDevicesHeader :: Print MsgRule
           :: trace (print_devices 0 (devices self) self))
    | Diverges =>
        mkResult Diverges self
          (Print MsgDevicesHeader :: Print MsgRule
           :: trace (print_devices 0 (devices self) self))
    end.
Proof.
  unfold display_devices.
  cbv [bind print emit get_devices]. cbn [result final trace].
  pose proof (print_devices_frame (devices self) 0 self) as Hframe.
  destruct (print_devices 0 (devices self) self) as [res fin tr].
  cbn in Hframe |- *. subst fin.
  destruct res; reflexivity.
Qed.

Lemma print_devices_lines_only (ds : list json) (i : Z) (self : SpeakerUp) :
  Forall is_device_line (printed (trace (print_devices i ds self))).
Proof.
  revert i. induction ds as [| device rest IH]; intros i; [constructor |].
  destruct (listing_error device) as [e |] eqn:Herr.
  - rewrite (print_devices_stops device rest i self e Herr). constructor.
  - destruct (listing_error_named device Herr)
      as (fields & name & -> & Hname).
    rewrite (print_devices_named fields name rest i self Hname).
    cbn [trace printed]. constructor; [exact I | apply IH].
Qed.

Section Listing.

Variable os : run_request -> process.
Variable json_loads : string -> loads_outcome.

Abbreviation enumerate := (get_audio_devices os json_loads).
Abbreviation show := (list_devices os json_loads).

(** [list_devices] by the cases of the snapshot and of the enumeration. *)
Lemma list_devices_cases (self : SpeakerUp) :
  (devices self <> [] /\ show self = display_devices self)
  \/ (devices self = []
      /\ exists o,
           stopped o /\ show self = mkResult o self [OsCall query_request])
  \/ (devices self = []
      /\ exists ds,
           (forall s, enumerate s
                      = mkResult (Returns true) (mkSpeakerUp ds)
                          [OsCall query_request])
           /\ show self
              = mkResult (result (display_devices (mkSpeakerUp ds)))
                  (mkSpeakerUp ds)
                  (OsCall query_request
                   :: trace (display_devices (mkSpeakerUp ds)))).
Proof.
  destruct self as [[| d ds]].
  - right.
    destruct (get_audio_devices_shape os json_loads)
      as [(o & Ho & Hblocked) | [ds' Hdone]].
    + left. split; [reflexivity |]. exists o. split; [exact Ho |].
      apply (list_devices_blocked os json_loads o Ho), Hblocked.
    + right. split; [reflexivity |]. exists ds'. split; [exact Hdone |].
      rewrite (list_devices_enumerated os json_loads ds' (Hdone _)).
      now rewrite display_devices_frame.
  - left. split; [discriminate |].
    apply list_devices_cached. discriminate.
Qed.

(** X1: With a snapshot in hand [list_devices] asks the operating system
    nothing and leaves the snapshot alone: the list shown is the cached
    one, however old. *)
Theorem list_devices_uses_cache (self : SpeakerUp) :
  devices self <> [] ->
  os_calls (trace (show self)) = []
  /\ final (show self) = self.
Proof.
  intros Hcached.
  rewrite (list_devices_cached os json_loads self Hcached).
  split; [| apply display_devices_frame].
  rewrite display_devices_cases.
  pose proof (print_devices_calls (devices self) 0 self) as Hcalls.
  destruct (result (print_devices 0 (devices self) self));
    cbn [trace os_calls]; rewrite ?os_calls_app, Hcalls; reflexivity.
Qed.

(** X2: When every record of the snapshot has a name, [list_devices] returns
    [True] and prints, between the header and the closing rule, one line
    per device in the order of the snapshot: the device at position [k] is
    numbered [k + 1] and shown with its name and its default marker. *)
Theorem list_devices_numbers_from_one (self : SpeakerUp) :
  devices self <> [] ->
  Forall (fun d => listing_error d = None) (devices self) ->
  result (show self) = Returns true
  /\ exists lines,
       printed (trace (show self))
       = MsgDevicesHeader :: MsgRule :: lines ++ [MsgRule]
       /\ List.length lines = List.length (devices self)
       /\ forall k device name,
            nth_error (devices self) k = Some device ->
            device_field device "Name" = Some name ->
            nth_error lines k
            = Some (MsgDeviceLine (Z.of_nat k + 1) name
                      (device_is_default device)).
Proof.
  intros Hcached Hnamed.
  rewrite (list_devices_cached os json_loads self Hcached).
  rewrite display_devices_cases.
  pose proof (print_devices_app (devices self) [] 0 self Hnamed) as Hloop.
  rewrite app_nil_r in Hloop. change (Z.of_nat 0) with 0 in Hloop.
  rewrite Hloop. cbn [print_devices ret result final trace].
  rewrite app_nil_r. split; [reflexivity |].
  exists (device_lines 0 (devices self)).
  cbn [printed]. rewrite printed_app, printed_prints.
  split; [reflexivity |].
  split; [apply device_lines_length; exact Hnamed |].
  intros k device name Hnth Hname.
  apply (device_lines_nth (devices self) 0 k device name Hnamed Hnth Hname).
Qed.

(** X3: A record that is not a dict, or a dict without ["Name"], stops the
    listing: [list_devices] raises ([AttributeError], [KeyError]) after the
    header and the lines of the records before it, and the snapshot keeps
    the record. *)
Theorem list_devices_stops_at_bad_record (self : SpeakerUp)
  (good rest : list json) (bad : json) (e : exn) :
  devices self = good ++ bad :: rest ->
  Forall (fun d => listing_error d = None) good ->
  listing_error bad = Some e ->
  result (show self) = Raises e
  /\ final (show self) = self
  /\ printed (trace (show self))
     = MsgDevicesHeader :: MsgRule :: device_lines 0 good
  /\ List.length (device_lines 0 good) = List.length good.
Proof.
  intros Hds Hgood Hbad.
  assert (Hcached : devices self <> [])
    by (rewrite Hds; destruct good; discriminate).
  rewrite (list_devices_cached os json_loads self Hcached).
  rewrite display_devices_cases, Hds.
  pose proof (print_devices_app good (bad :: rest) 0 self Hgood) as Hloop.
  change (Z.of_nat 0) with 0 in Hloop. rewrite Hloop.
  rewrite (print_devices_stops bad rest _ self e Hbad).
  cbn [result final trace printed]. rewrite app_nil_r, printed_prints.
  repeat split. apply device_lines_length. exact Hgood.
Qed.

(** X4: An enumeration that finds no device is not kept as a snapshot: when the
    query prints a list with no element, [list_devices] shows the header
    and the two rules, returns [True], and the next [list_devices] runs the
    query again. *)
Theorem list_devices_empty_answer (self : SpeakerUp) (out err : string) :
  devices self = [] ->
  os query_request = Exits 0 out err ->
  json_loads out = Loaded (JArr []) ->
  let shown :=
    mkResult (Returns true) (mkSpeakerUp [])
      [OsCall query_request; Print MsgDevicesHeader; Print MsgRule;
       Print MsgRule] in
  show self = shown
  /\ show (final (show self)) = shown.
Proof.
  intros Hempty Hexit Hloads shown.
  assert (Henum : forall s,
             enumerate s
             = mkResult (Returns true) (mkSpeakerUp []) [OsCall query_request]).
  { intros s.
    now rewrite (get_audio_devices_decoded os json_loads s out err
                   (JArr []) Hexit Hloads). }
  assert (Hshow : show (mkSpeakerUp []) = shown).
  { rewrite (list_devices_enumerated os json_loads [] (Henum _)).
    reflexivity. }
  destruct self as [ds]. cbn in Hempty. subst ds.
  rewrite Hshow. split; [reflexivity | exact Hshow].
Qed.

(** X5: Refreshing runs the query once when it finds devices, and twice when
    it finds none ([list_devices] then takes the empty list for a missing
    snapshot); either way the snapshot afterwards is the list found. *)
Theorem refresh_queries (self : SpeakerUp) (ds : list json) :
  enumerate self
  = mkResult (Returns true) (mkSpeakerUp ds) [OsCall query_request] ->
  os_calls (trace (refresh_devices os json_loads self))
  = match ds with
    | [] => [query_request; query_request]
    | _ => [query_request]
    end
  /\ devices (final (refresh_devices os json_loads self)) = ds.
Proof.
  intros Henum.
  assert (Hall : forall s,
             enumerate s
             = mkResult (Returns true) (mkSpeakerUp ds) [OsCall query_request]).
  { destruct (get_audio_devices_shape os json_loads)
      as [(o & Ho & Hblocked) | [ds' Hdone]].
    - rewrite Hblocked in Henum. injection Henum as Ho' _.
      now elim (stopped_not_returns o true Ho).
    - intros s. rewrite Hdone. rewrite Hdone in Henum.
      injection Henum as ->. reflexivity. }
  assert (Hrefresh :
            refresh_devices os json_loads self
            = mkResult (result (show (mkSpeakerUp ds)))
                (final (show (mkSpeakerUp ds)))
                (OsCall query_request :: trace (show (mkSpeakerUp ds)))).
  { unfold refresh_devices, bind. rewrite Henum. reflexivity. }
  rewrite Hrefresh. cbn [final trace os_calls].
  pose proof (print_devices_calls ds 0 (mkSpeakerUp ds)) as Hcalls.
  destruct ds as [| d ds'].
  - rewrite (list_devices_enumerated os json_loads [] (Hall _)).
    split; reflexivity.
  - rewrite (list_devices_cached os json_loads (mkSpeakerUp (d :: ds')))
      by (cbn; discriminate).
    rewrite display_devices_frame. split; [| reflexivity].
    rewrite display_devices_cases. cbn [devices] in Hcalls |- *.
    destruct (result (print_devices 0 (d :: ds') (mkSpeakerUp (d :: ds'))));
      cbn [trace app os_calls]; rewrite ?os_calls_app, Hcalls; reflexivity.
Qed.

(** X6: [get_audio_devices] never returns [False], and none of the three
    exceptions it catches ([CalledProcessError], [JSONDecodeError],
    [FileNotFoundError]) leaves it.  So [list_devices] never returns
    [False] either, and the message of the fallback's handler, "Could not
    retrieve audio devices", is never printed. *)
Theorem enumeration_never_reports_failure (self : SpeakerUp) :
  result (enumerate self) <> Returns false
  /\ (forall rc err,
        result (enumerate self) <> Raises (CalledProcessError rc err))
  /\ result (enumerate self) <> Raises JSONDecodeError
  /\ result (enumerate self) <> Raises FileNotFoundError
  /\ result (show self) <> Returns false
  /\ ~ In MsgCouldNotRetrieve (printed (trace (show self))).
Proof.
  assert (Hdisplay : forall s,
             result (display_devices s) <> Returns false
             /\ ~ In MsgCouldNotRetrieve (printed (trace (display_devices s)))).
  { intros s. rewrite display_devices_cases.
    pose proof (print_devices_lines_only (devices s) 0 s) as Hlines.
    assert (Hnot : ~ In MsgCouldNotRetrieve
                     (printed (trace (print_devices 0 (devices s) s)))).
    { intros Hin. rewrite Forall_forall in Hlines.
      exact (Hlines _ Hin). }
    destruct (result (print_devices 0 (devices s) s));
      cbn [result trace printed]; (split; [discriminate |]);
      rewrite ?printed_app; cbn [printed];
      intros [H | [H | H]]; try discriminate;
      try (apply in_app_or in H; destruct H as [H | [H | []]];
           try discriminate);
      now apply Hnot. }
  assert (Henum : result (enumerate self) <> Returns false
                  /\ (forall rc err,
                        result (enumerate self)
                        <> Raises (CalledProcessError rc err))
                  /\ result (enumerate self) <> Raises JSONDecodeError
                  /\ result (enumerate self) <> Raises FileNotFoundError).
  { destruct (get_audio_devices_shape os json_loads)
      as [(o & Ho & Hblocked) | [ds Hdone]].
    - rewrite Hblocked. cbn [result].
      destruct Ho as [-> | (e & -> & He)];
        [repeat split; discriminate |].
      unfold escapes_enumeration in He.
      repeat split; try intros rc err; intros [= ->];
        destruct He as [He | [He | [He | [He | He]]]]; discriminate.
    - rewrite Hdone. repeat split; discriminate. }
  destruct Henum as (Hfalse & Hcpe & Hjson & Hfnf).
  split; [exact Hfalse |]. split; [exact Hcpe |].
  split; [exact Hjson |]. split; [exact Hfnf |].
  destruct (list_devices_cases self)
    as [[_ Hshow] | [[_ (o & Ho & Hshow)] | [_ (ds & _ & Hshow)]]];
    rewrite Hshow.
  - apply Hdisplay.
  - cbn. split; [apply stopped_not_returns, Ho | tauto].
  - cbn [result trace printed]. apply Hdisplay.
Qed.

End Listing.

(** ** Edges of [set_volume] *)

Lemma resolve_from_the_end (ds : list json) (i : Z) (device name : json)
  (self : SpeakerUp) :
  - Z.of_nat (List.length ds) <= i < 0 ->
  nth_error ds (Z.to_nat (Z.of_nat (List.length ds) + i)) = Some device ->
  device_field device "Name" = Some name ->
  resolve_device_name ds (Some i) self = mkResult (Returns name) self [].
Proof.
  intros Hi Hnth Hname. unfold resolve_device_name, py_index.
  replace (i <? Z.of_nat (List.length ds)) with true
    by (symmetry; apply Z.ltb_lt; lia).
  replace (i <? 0) with true by (symmetry; apply Z.ltb_lt; lia).
  replace (0 <=? Z.of_nat (List.length ds) + i) with true
    by (symmetry; apply Z.leb_le; lia).
  rewrite Hnth. destruct device; try discriminate.
  cbn in Hname |- *. now rewrite Hname.
Qed.

Lemma resolve_nameless (ds : list json) (i : Z) (device : json)
  (self : SpeakerUp) :
  0 <= i ->
  nth_error ds (Z.to_nat i) = Some device ->
  device_field device "Name" = None ->
  exists e,
    resolve_device_name ds (Some i) self = mkResult (Raises e) self []
    /\ (e = KeyError "Name" \/ e = TypeError).
Proof.
  intros Hi Hnth Hname. unfold resolve_device_name, py_index.
  assert (Hlen : (Z.to_nat i < List.length ds)%nat)
    by (apply nth_error_Some; congruence).
  replace (i <? Z.of_nat (List.length ds)) with true
    by (symmetry; apply Z.ltb_lt; lia).
  replace (i <? 0) with false by (symmetry; apply Z.ltb_ge; lia).
  rewrite Hnth.
  destruct device;
    try (exists TypeError; split; [reflexivity | now right]).
  cbn in Hname |- *. rewrite Hname.
  exists (KeyError "Name"). split; [reflexivity | now left].
Qed.

Section VolumeEdges.

Variable os : run_request -> process.

(** X7: When the script exits with a non-zero status, [set_volume] makes no
    second attempt: it prints the error with the script's stderr as it
    came and returns [False]. *)
Theorem set_volume_reports_stderr (volume : Z) (device_index : option Z)
  (self : SpeakerUp) (rc : Z) (out err : string) :
  0 <= volume <= 100 ->
  os (volume_request volume device_index) = Exits rc out err ->
  rc <> 0 ->
  set_volume os volume device_index self
  = mkResult (Returns false) self
      [OsCall (volume_request volume device_index);
       Print (MsgErrorSetting err)].
Proof.
  intros Hv Hos Hrc.
  rewrite (set_volume_cases os volume device_index self Hv). cbv zeta.
  rewrite Hos.
  replace (rc =? 0) with false by (symmetry; now apply Z.eqb_neq).
  reflexivity.
Qed.

(** X8: Without PowerShell on the host [set_volume] does not return: the
    [FileNotFoundError] of the call is not among the exceptions it
    catches, while [get_audio_devices] on the same host falls back and
    returns [True]. *)
Theorem set_volume_without_powershell (volume : Z) (device_index : option Z)
  (self : SpeakerUp) (json_loads : string -> loads_outcome) :
  (forall req, os req = NotFound) ->
  0 <= volume <= 100 ->
  set_volume os volume device_index self
  = mkResult (Raises FileNotFoundError) self
      [OsCall (volume_request volume device_index)]
  /\ result (get_audio_devices os json_loads self) = Returns true.
Proof.
  intros Habsent Hv. split.
  - rewrite (set_volume_cases os volume device_index self Hv). cbv zeta.
    now rewrite Habsent.
  - rewrite (get_audio_devices_fallback os json_loads self);
      [reflexivity |].
    apply facility_absent, Habsent.
Qed.

(** X9: A negative index no smaller than [-len(self.devices)] is read the
    Python way in the acknowledgment: the script is given the negative
    index, and the name reported is that of the record counted from the
    end of the snapshot. *)
Theorem set_volume_counts_from_the_end (volume i : Z) (self : SpeakerUp)
  (device name : json) (out err : string) :
  0 <= volume <= 100 ->
  - Z.of_nat (List.length (devices self)) <= i < 0 ->
  nth_error (devices self)
    (Z.to_nat (Z.of_nat (List.length (devices self)) + i)) = Some device ->
  device_field device "Name" = Some name ->
  os (volume_request volume (Some i)) = Exits 0 out err ->
  set_volume os volume (Some i) self
  = mkResult (Returns true) self
      [OsCall (powershell (SetDeviceVolume i (volume_fraction volume)));
       Print (MsgVolumeSet volume name)].
Proof.
  intros Hv Hi Hnth Hname Hos.
  rewrite (set_volume_cases os volume (Some i) self Hv). cbv zeta.
  rewrite Hos. cbn [Z.eqb].
  rewrite (resolve_from_the_end (devices self) i device name self
             Hi Hnth Hname).
  reflexivity.
Qed.

(** X10: When the record at the index has no name to give (no ["Name"] key, or
    not a dict), the script has already run with status 0 by the time
    [set_volume] raises [KeyError] or [TypeError]: nothing is
    acknowledged. *)
Theorem set_volume_nameless_record (volume i : Z) (self : SpeakerUp)
  (device : json) (out err : string) :
  0 <= volume <= 100 ->
  0 <= i ->
  nth_error (devices self) (Z.to_nat i) = Some device ->
  device_field device "Name" = None ->
  os (volume_request volume (Some i)) = Exits 0 out err ->
  exists e,
    set_volume os volume (Some i) self
    = mkResult (Raises e) self [OsCall (volume_request volume (Some i))]
    /\ (e = KeyError "Name" \/ e = TypeError).
Proof.
  intros Hv Hi Hnth Hname Hos.
  destruct (resolve_nameless (devices self) i device self Hi Hnth Hname)
    as (e & Hresolve & He).
  exists e. split; [| exact He].
  rewrite (set_volume_cases os volume (Some i) self Hv). cbv zeta.
  rewrite Hos. cbn [Z.eqb]. rewrite Hresolve. reflexivity.
Qed.

End VolumeEdges.

(** * Properties of the command line *)

(** ** What the methods issue and raise *)

Lemma print_devices_raises (ds : list json) (i : Z) (self : SpeakerUp)
  (e : exn) :
  result (print_devices i ds self) = Raises e ->
  e = AttributeError \/ e = KeyError "Name".
Proof.
  revert i. induction ds as [| device rest IH]; intros i; [discriminate |].
  destruct (listing_error device) as [e' |] eqn:Herr.
  - rewrite (print_devices_stops device rest i self e' Herr).
    cbn [result]. intros [= <-].
    destruct device; cbn in Herr;
      try (injection Herr as <-; now left).
    destruct (dict_lookup fields "Name"); [discriminate |].
    injection Herr as <-. now right.
  - destruct (listing_error_named device Herr)
      as (fields & name & -> & Hname).
    rewrite (print_devices_named fields name rest i self Hname).
    cbn [result]. apply IH.
Qed.

Lemma print_devices_returns_or_raises (ds : list json) (i : Z)
  (self : SpeakerUp) :
  result (print_devices i ds self) <> Diverges.
Proof.
  revert i. induction ds as [| device rest IH]; intros i; [discriminate |].
  destruct (listing_error device) as [e' |] eqn:Herr.
  - rewrite (print_devices_stops device rest i self e' Herr). discriminate.
  - destruct (listing_error_named device Herr)
      as (fields & name & -> & Hname).
    rewrite (print_devices_named fields name rest i self Hname).
    cbn [result]. apply IH.
Qed.

Lemma display_devices_ok (P : ps_script -> Prop) (self : SpeakerUp) :
  method_ok P method_exn (display_devices self).
Proof.
  rewrite display_devices_cases.
  pose proof (print_devices_calls (devices self) 0 self) as Hcalls.
  pose proof (print_devices_raises (devices self) 0 self) as Hraises.
  destruct (result (print_devices 0 (devices self) self)) as [u | e |];
    (split;
     [cbn [trace os_calls]; rewrite ?os_calls_app, Hcalls; constructor |]);
    cbn [result]; intros e'; try discriminate.
  intros [= <-]. destruct (Hraises e eq_refl) as [-> | ->]; exact I.
Qed.

Section MethodRuns.

Variable os : run_request -> process.
Variable json_loads : string -> loads_outcome.

Lemma escapes_enumeration_method (e : exn) :
  escapes_enumeration e -> method_exn e.
Proof. intros [-> | [-> | [-> | [-> | ->]]]]; exact I. Qed.

Lemma get_audio_devices_ok (P : ps_script -> Prop) (self : SpeakerUp) :
  P QueryPlaybackDevices ->
  method_ok P method_exn (get_audio_devices os json_loads self).
Proof.
  intros HP.
  destruct (get_audio_devices_shape os json_loads)
    as [(o & Ho & Hblocked) | [ds Hdone]];
    rewrite ?Hblocked, ?Hdone;
    (split; [cbn; constructor; [exact HP | constructor] |]);
    [| discriminate].
  cbn [result]. intros e ->.
  destruct Ho as [Ho | (e' & [= <-] & He)]; [discriminate |].
  now apply escapes_enumeration_method.
Qed.

Lemma list_devices_ok (P : ps_script -> Prop) (self : SpeakerUp) :
  P QueryPlaybackDevices ->
  method_ok P method_exn
    (list_devices os json_loads self).
Proof.
  intros HP.
  destruct (list_devices_cases os json_loads self)
    as [[_ Hshow] | [[_ (o & Ho & Hshow)] | [_ (ds & _ & Hshow)]]];
    rewrite Hshow.
  - apply display_devices_ok.
  - split; [cbn; constructor; [exact HP | constructor] |].
    cbn [result]. intros e ->.
    destruct Ho as [Ho | (e' & [= <-] & He)]; [discriminate |].
    now apply escapes_enumeration_method.
  - destruct (display_devices_ok P (mkSpeakerUp ds)) as [Hcalls Hraises].
    split; [cbn; constructor; [exact HP | exact Hcalls] | exact Hraises].
Qed.

Lemma refresh_devices_ok (P : ps_script -> Prop) (self : SpeakerUp) :
  P QueryPlaybackDevices ->
  method_ok P method_exn
    (refresh_devices os json_loads self).
Proof.
  intros HP. unfold refresh_devices, bind.
  destruct (get_audio_devices_ok P self HP) as [Hcalls Hraises].
  destruct (get_audio_devices os json_loads self) as [res fin tr].
  cbn [result final trace] in *.
  destruct res as [ok | e |].
  - destruct (list_devices_ok P fin HP) as [Hcalls' Hraises'].
    split; cbn [result trace]; [| exact Hraises'].
    rewrite os_calls_app, map_app. apply Forall_app. now split.
  - split; [exact Hcalls |]. cbn [result]. intros e' [= <-].
    now apply Hraises.
  - split; [exact Hcalls | discriminate].
Qed.

(** [set_volume] either rejects the percent, or issues its one request for
    a percent in range and raises only what the call or the name lookup
    raises. *)
Lemma set_volume_outcomes (volume : Z) (device_index : option Z)
  (self : SpeakerUp) :
  final (set_volume os volume device_index self) = self
  /\ (set_volume os volume device_index self
      = mkResult (Returns false) self [Print MsgVolumeRange]
      \/ (0 <= volume <= 100
          /\ os_calls (trace (set_volume os volume device_index self))
             = [volume_request volume device_index]
          /\ forall e,
               result (set_volume os volume device_index self) = Raises e ->
               (e = FileNotFoundError \/ e = PermissionError
                \/ e = UnicodeDecodeError \/ e = CallInterrupted)
               \/ result
                    (resolve_device_name (devices self) device_index self)
                  = Raises e)).
Proof.
  destruct ((volume <? 0) || (volume >? 100)) eqn:Hguard.
  { rewrite (set_volume_rejected os volume device_index self Hguard).
    split; [reflexivity | now left]. }
  apply orb_false_iff in Hguard. destruct Hguard as [Hlo Hhi].
  apply Z.ltb_ge in Hlo. rewrite Z.gtb_ltb in Hhi. apply Z.ltb_ge in Hhi.
  assert (Hv : 0 <= volume <= 100) by lia.
  rewrite (set_volume_cases os volume device_index self Hv). cbv zeta.
  destruct (os (volume_request volume device_index))
    as [| | rc out err | rc | |];
    try (split; [reflexivity |]; right; (split; [exact Hv |]);
         (split; [reflexivity |]); intros e [= <-]; left; tauto).
  - destruct (rc =? 0).
    + destruct (result
                  (resolve_device_name (devices self) device_index self))
        as [name | e' |];
        (split; [reflexivity |]); right; (split; [exact Hv |]);
        (split; [reflexivity |]); intros e; try discriminate.
      intros [= <-]. now right.
    + split; [reflexivity |]. right. split; [exact Hv |].
      split; [reflexivity |]. discriminate.
Qed.

Lemma volume_request_level (volume : Z) (device_index : option Z) :
  0 <= volume <= 100 ->
  level_in_unit (script (volume_request volume device_index)).
Proof.
  intros Hv. pose proof (fraction_in_unit_ok volume Hv) as Hunit.
  apply andb_prop in Hunit.
  destruct device_index; exact Hunit.
Qed.

End MethodRuns.

Lemma resolve_raises (ds : list json) (device_index : option Z)
  (self : SpeakerUp) (e : exn) :
  result (resolve_device_name ds device_index self) = Raises e ->
  e = IndexError \/ e = KeyError "Name" \/ e = TypeError.
Proof.
  unfold resolve_device_name.
  destruct device_index as [i |]; [| discriminate].
  destruct (i <? Z.of_nat (List.length ds)); [| discriminate].
  destruct (py_index ds i) as [device |]; [| intros [= <-]; now left].
  unfold subscript. destruct device; try (intros [= <-]; now right; right).
  destruct (dict_lookup fields "Name"); [discriminate |].
  intros [= <-]. right. now left.
Qed.

Lemma py_index_in_snapshot (ds : list json) (i : Z) :
  in_snapshot i ds = true -> exists d, py_index ds i = Some d.
Proof.
  unfold in_snapshot, py_index. intros Hin.
  apply andb_prop in Hin. destruct Hin as [Hlo Hhi].
  apply Z.leb_le in Hlo. apply Z.ltb_lt in Hhi.
  replace (i <? 0) with false by (symmetry; apply Z.ltb_ge; lia).
  destruct (nth_error ds (Z.to_nat i)) as [d |] eqn:Hnth; [now exists d |].
  apply nth_error_None in Hnth. lia.
Qed.

Lemma resolve_raises_listed (ds : list json) (i : Z) (self : SpeakerUp)
  (e : exn) :
  in_snapshot i ds = true ->
  result (resolve_device_name ds (Some i) self) = Raises e ->
  e = KeyError "Name" \/ e = TypeError.
Proof.
  intros Hin Hraises.
  destruct (resolve_raises ds (Some i) self e Hraises) as [-> | H];
    [| exact H].
  exfalso. unfold resolve_device_name in Hraises.
  destruct (i <? Z.of_nat (List.length ds)); [| discriminate].
  destruct (py_index_in_snapshot ds i Hin) as [d Hd].
  rewrite Hd in Hraises. unfold subscript in Hraises.
  destruct d; try discriminate.
  destruct (dict_lookup fields "Name"); discriminate.
Qed.

Lemma item_name_ok (P : ps_script -> Prop) (ds : list json) (i : Z)
  (self : SpeakerUp) :
  in_snapshot i ds = true ->
  method_ok P method_exn (item_name ds i self)
  /\ final (item_name ds i self) = self.
Proof.
  intros Hin. unfold item_name.
  destruct (py_index_in_snapshot ds i Hin) as [d ->].
  destruct (subscript_pure d "Name" self) as (Hfinal & Htrace & _ & _).
  split; [| exact Hfinal].
  split; [rewrite Htrace; constructor |].
  unfold subscript. destruct d; try (intros e [= <-]; exact I).
  destruct (dict_lookup fields "Name"); [discriminate |].
  intros e [= <-]. exact I.
Qed.

(** ** Rules for commands *)

Lemma scripts_run_app (evs1 evs2 : list cli_event) :
  scripts_run (evs1 ++ evs2) = scripts_run evs1 ++ scripts_run evs2.
Proof.
  induction evs1 as [| [[req | msg] | p | msg] evs1 IH]; cbn;
    [reflexivity | now rewrite IH | exact IH | exact IH | exact IH].
Qed.

Lemma scripts_run_methods (tr : list event) :
  scripts_run (map Method tr) = map script (os_calls tr).
Proof.
  induction tr as [| [req | msg] tr IH]; cbn;
    [reflexivity | now rewrite IH | exact IH].
Qed.

Section Rules.

Context {A B : Type}.
Variable P : ps_script -> Prop.

Lemma well_behaved_ret (ok : cli_exn -> Prop) (a : A) (self : SpeakerUp)
  (inp : list keystroke) :
  well_behaved P ok inp (cret a self inp).
Proof. repeat split; cbn; [constructor | discriminate | discriminate | lia]. Qed.

Lemma well_behaved_fail (ok : cli_exn -> Prop) (e : cli_exn)
  (self : SpeakerUp) (inp : list keystroke) :
  ok e -> well_behaved P ok inp (@cfail A e self inp).
Proof.
  intros He. repeat split; cbn; [constructor | | discriminate | lia].
  now intros e' [= <-].
Qed.

Lemma well_behaved_weaken (ok ok' : cli_exn -> Prop) (inp : list keystroke)
  (r : cli_result A) :
  (forall e, ok e -> ok' e) ->
  well_behaved P ok inp r -> well_behaved P ok' inp r.
Proof.
  intros Hok (Hscripts & Hfails & Hfuel & Hlen).
  repeat split; try assumption. intros e He. apply Hok, Hfails, He.
Qed.

Lemma well_behaved_relax (P' : ps_script -> Prop) (ok : cli_exn -> Prop)
  (inp : list keystroke) (r : cli_result A) :
  (forall cmd, P cmd -> P' cmd) ->
  well_behaved P ok inp r -> well_behaved P' ok inp r.
Proof.
  intros HP (Hscripts & Hfails & Hfuel & Hlen).
  repeat split; try assumption.
  eapply Forall_impl; [exact HP | exact Hscripts].
Qed.

Lemma well_behaved_bind (ok : cli_exn -> Prop) (m : CM A) (k : A -> CM B)
  (self : SpeakerUp) (inp : list keystroke) :
  well_behaved P ok inp (m self inp) ->
  (forall a self' inp',
     (List.length inp' <= List.length inp)%nat ->
     well_behaved P ok inp' (k a self' inp')) ->
  well_behaved P ok inp (cbind m k self inp).
Proof.
  intros (Hscripts & Hfails & Hfuel & Hlen) Hk. unfold cbind.
  destruct (m self inp) as [[a | e | |] self' inp' evs];
    cbn [ended app unread events] in *.
  - destruct (Hk a self' inp' Hlen) as (Hscripts' & Hfails' & Hfuel' & Hlen').
    repeat split; cbn [ended app unread events]; try assumption.
    + rewrite scripts_run_app. apply Forall_app. now split.
    + lia.
  - repeat split; cbn; try assumption; try discriminate.
    intros e' [= <-]. now apply Hfails.
  - repeat split; cbn; try assumption; discriminate.
  - now elim Hfuel.
Qed.

Lemma well_behaved_try (ok ok' : cli_exn -> Prop) (body : CM A)
  (catches : cli_exn -> bool) (handler : CM A)
  (self : SpeakerUp) (inp : list keystroke) :
  well_behaved P ok' inp (body self inp) ->
  (forall e, ok' e -> catches e = false -> ok e) ->
  (forall self' inp',
     (List.length inp' <= List.length inp)%nat ->
     well_behaved P ok inp' (handler self' inp')) ->
  well_behaved P ok inp (ctry body catches handler self inp).
Proof.
  intros (Hscripts & Hfails & Hfuel & Hlen) Hok Hhandler. unfold ctry.
  destruct (body self inp) as [[a | e | |] self' inp' evs];
    cbn [ended app unread events] in *.
  - repeat split; cbn; try assumption; discriminate.
  - destruct (catches e) eqn:Hcatches.
    + destruct (Hhandler self' inp' Hlen)
        as (Hscripts' & Hfails' & Hfuel' & Hlen').
      repeat split; cbn [ended app unread events]; try assumption.
      * rewrite scripts_run_app. apply Forall_app. now split.
      * lia.
    + repeat split; cbn; try assumption.
      intros e' [= <-]. apply Hok; [now apply Hfails | exact Hcatches].
  - repeat split; cbn; try assumption; discriminate.
  - now elim Hfuel.
Qed.

(** A method call followed by what the program does with its result, in
    the state the call leaves. *)
Lemma well_behaved_call (ok : cli_exn -> Prop) (m : M A) (k : A -> CM B)
  (self : SpeakerUp) (inp : list keystroke) :
  method_ok P (fun e => ok (MethodError e)) (m self) ->
  (forall a, result (m self) = Returns a ->
     well_behaved P ok inp (k a (final (m self)) inp)) ->
  well_behaved P ok inp (cbind (lift m) k self inp).
Proof.
  intros [Hcalls Hraises] Hk. unfold cbind, lift.
  destruct (m self) as [[a | e |] self' tr];
    cbn [result final trace ended app unread events] in *.
  - destruct (Hk a eq_refl) as (Hscripts' & Hfails' & Hfuel' & Hlen').
    repeat split; cbn [ended app unread events]; try assumption.
    rewrite scripts_run_app, scripts_run_methods. apply Forall_app.
    now split.
  - repeat split; cbn; try discriminate; [| | lia].
    + now rewrite scripts_run_methods.
    + intros e' [= <-]. now apply Hraises.
  - repeat split; cbn; try discriminate; [| lia].
    now rewrite scripts_run_methods.
Qed.

End Rules.

Lemma well_behaved_say (P : ps_script -> Prop) (ok : cli_exn -> Prop)
  (msg : cli_message) (self : SpeakerUp) (inp : list keystroke) :
  well_behaved P ok inp (say msg self inp).
Proof. repeat split; cbn; [constructor | discriminate | discriminate | lia]. Qed.

Lemma well_behaved_input (P : ps_script -> Prop) (ok : cli_exn -> Prop)
  (p : prompt) (self : SpeakerUp) (inp : list keystroke) :
  ok EOFError -> ok KeyboardInterrupt ->
  well_behaved P ok inp (input p self inp).
Proof.
  intros Heof Hint. unfold input.
  destruct inp as [| [s |] rest]; repeat split; cbn;
    try constructor; try discriminate; try lia.
  - now intros e [= <-].
  - now intros e [= <-].
Qed.

Lemma menu_exn_eof : menu_exn EOFError.
Proof. left. exact I. Qed.

Lemma menu_exn_interrupt : menu_exn KeyboardInterrupt.
Proof. now right. Qed.

Lemma menu_exn_method (e : exn) :
  method_exn e -> menu_exn (MethodError e).
Proof. intros He. destruct e; try (left; exact He). now right. Qed.

Lemma session_exn_method (e : exn) :
  method_exn e -> session_exn (MethodError e).
Proof. intros He. destruct e; try (left; exact He). now right. Qed.

Lemma parsing_exn_method (e : exn) :
  method_exn e -> parsing_exn (MethodError e).
Proof. intros He. left. now apply menu_exn_method. Qed.

Lemma loop_exn_uncaught (e : cli_exn) :
  menu_exn e -> is_keyboard_interrupt e = false -> loop_exn e.
Proof. intros [He | He] Hcaught; [exact He | congruence]. Qed.

Lemma parsing_exn_uncaught (e : cli_exn) :
  parsing_exn e -> is_value_error e = false -> menu_exn e.
Proof. intros [He | He] Hcaught; [exact He | congruence]. Qed.

Lemma safe_query : safe_script QueryPlaybackDevices.
Proof. split; exact I. Qed.

Create HintDb cli.

#[local] Hint Resolve menu_exn_eof menu_exn_interrupt safe_query : cli.

Lemma method_ok_weaken {A : Type} (P P' : ps_script -> Prop)
  (ok ok' : exn -> Prop) (r : run_result A) :
  (forall cmd, P cmd -> P' cmd) ->
  (forall e, ok e -> ok' e) ->
  method_ok P ok r -> method_ok P' ok' r.
Proof.
  intros HP Hok [Hcalls Hraises]. split.
  - eapply Forall_impl; [exact HP | exact Hcalls].
  - intros e He. apply Hok, Hraises, He.
Qed.

Lemma get_devices_ok (P : ps_script -> Prop) (ok : exn -> Prop)
  (self : SpeakerUp) :
  method_ok P ok (get_devices self).
Proof. split; [constructor | discriminate]. Qed.

Section VolumeCalls.

Variable os : run_request -> process.

Lemma set_volume_default_ok (volume : Z) (self : SpeakerUp) :
  method_ok safe_script method_exn
    (set_volume os volume None self).
Proof.
  destruct (set_volume_outcomes os volume None self)
    as [_ [-> | (Hv & Hcalls & Hraises)]].
  - split; [constructor | discriminate].
  - split.
    + rewrite Hcalls. constructor; [| constructor].
      split; [apply volume_request_level; exact Hv | exact I].
    + intros e He.
      destruct (Hraises e He) as [[-> | [-> | [-> | ->]]] | Hresolve];
        try exact I.
      discriminate.
Qed.

Lemma set_volume_listed_ok (volume i : Z) (self : SpeakerUp) :
  in_snapshot i (devices self) = true ->
  method_ok safe_script method_exn
    (set_volume os volume (Some i) self).
Proof.
  intros Hin.
  destruct (set_volume_outcomes os volume (Some i) self)
    as [_ [-> | (Hv & Hcalls & Hraises)]].
  - split; [constructor | discriminate].
  - split.
    + rewrite Hcalls. constructor; [| constructor].
      split; [apply volume_request_level; exact Hv |].
      cbn. unfold in_snapshot in Hin. apply andb_prop in Hin.
      now apply Z.leb_le.
    + intros e He.
      destruct (Hraises e He) as [[-> | [-> | [-> | ->]]] | Hresolve];
        try exact I.
      destruct (resolve_raises_listed (devices self) i self e Hin Hresolve)
        as [-> | ->]; exact I.
Qed.

Lemma set_volume_any_ok (volume : Z) (device_index : option Z)
  (self : SpeakerUp) :
  method_ok level_in_unit (fun e => main_exn (MethodError e))
    (set_volume os volume device_index self).
Proof.
  destruct (set_volume_outcomes os volume device_index self)
    as [_ [-> | (Hv & Hcalls & Hraises)]].
  - split; [constructor | discriminate].
  - split.
    + rewrite Hcalls. constructor; [| constructor].
      apply volume_request_level; exact Hv.
    + intros e He.
      destruct (Hraises e He) as [[-> | [-> | [-> | ->]]] | Hresolve];
        try (left; apply menu_exn_method; exact I).
      destruct (resolve_raises (devices self) device_index self e Hresolve)
        as [-> | [-> | ->]];
        [now right | left; apply menu_exn_method; exact I ..].
Qed.

Lemma set_volume_frame (volume : Z) (device_index : option Z)
  (self : SpeakerUp) :
  final (set_volume os volume device_index self) = self.
Proof. apply set_volume_outcomes. Qed.

End VolumeCalls.


(** ** The menu *)

Section Menu.

Variable os : run_request -> process.
Variable json_loads : string -> loads_outcome.
Variable py_int : string -> option Z.
Variable strip : string -> string.

Abbreviation behaves := (well_behaved safe_script).

Lemma to_int_ok (ok : cli_exn -> Prop) (s : string) (self : SpeakerUp)
  (inp : list keystroke) :
  ok ValueError -> behaves ok inp (to_int py_int s self inp).
Proof.
  intros Hok. unfold to_int. destruct (py_int s).
  - apply well_behaved_ret.
  - now apply well_behaved_fail.
Qed.

Lemma parsing_exn_value : parsing_exn ValueError.
Proof. now right. Qed.

Lemma parsing_exn_menu (e : cli_exn) : menu_exn e -> parsing_exn e.
Proof. intros He. now left. Qed.

Lemma input_stripped_ok (ok : cli_exn -> Prop) (p : prompt)
  (self : SpeakerUp) (inp : list keystroke) :
  ok EOFError -> ok KeyboardInterrupt ->
  behaves ok inp (input_stripped strip p self inp).
Proof.
  intros Heof Hint. unfold input_stripped.
  apply well_behaved_bind; [now apply well_behaved_input |].
  intros s self' inp' _. apply well_behaved_ret.
Qed.

(** The guarded call of choices 2 and 3 and of [--craze]. *)
Lemma guarded_call_ok (volume device_idx : Z) (k : bool -> CM unit)
  (refused : CM unit) (self : SpeakerUp) (inp : list keystroke) :
  (forall b, behaves parsing_exn inp (k b self inp)) ->
  behaves parsing_exn inp (refused self inp) ->
  behaves parsing_exn inp
    (cbind (lift get_devices)
       (fun ds =>
          if in_snapshot device_idx ds
          then cbind (lift (set_volume os volume (Some device_idx))) k
          else refused) self inp).
Proof.
  intros Hk Hrefused.
  apply well_behaved_call; [apply get_devices_ok |].
  intros ds [= <-]. cbn [get_devices final].
  destruct (in_snapshot device_idx (devices self)) eqn:Hin;
    [| exact Hrefused].
  apply well_behaved_call.
  - eapply method_ok_weaken;
      [| | apply (set_volume_listed_ok os volume device_idx self Hin)];
      [auto | apply parsing_exn_method].
  - intros b _. rewrite set_volume_frame. apply Hk.
Qed.

Lemma default_call_ok (volume : Z) (k : bool -> CM unit)
  (self : SpeakerUp) (inp : list keystroke) :
  (forall b, behaves parsing_exn inp (k b self inp)) ->
  behaves parsing_exn inp
    (cbind (lift (set_volume os volume None)) k self inp).
Proof.
  intros Hk. apply well_behaved_call.
  - eapply method_ok_weaken;
      [| | apply (set_volume_default_ok os volume self)];
      [auto | apply parsing_exn_method].
  - intros b _. rewrite set_volume_frame. apply Hk.
Qed.

Lemma choice_default_volume_ok (self : SpeakerUp) (inp : list keystroke) :
  behaves menu_exn inp (choice_default_volume os py_int self inp).
Proof.
  unfold choice_default_volume.
  apply well_behaved_bind; [apply well_behaved_input; auto with cli |].
  intros text self1 inp1 _.
  apply well_behaved_try with (ok' := parsing_exn);
    [| apply parsing_exn_uncaught | intros; apply well_behaved_say].
  apply well_behaved_bind; [apply to_int_ok, parsing_exn_value |].
  intros volume self2 inp2 _.
  apply default_call_ok. intros b. apply well_behaved_ret.
Qed.

Lemma choice_device_volume_ok (self : SpeakerUp) (inp : list keystroke) :
  behaves menu_exn inp (choice_device_volume os py_int self inp).
Proof.
  unfold choice_device_volume.
  apply well_behaved_bind; [apply well_behaved_input; auto with cli |].
  intros choice self1 inp1 _.
  apply well_behaved_bind; [apply well_behaved_input; auto with cli |].
  intros text self2 inp2 _.
  apply well_behaved_try with (ok' := parsing_exn);
    [| apply parsing_exn_uncaught | intros; apply well_behaved_say].
  apply well_behaved_bind; [apply to_int_ok, parsing_exn_value |].
  intros n self3 inp3 _. cbv zeta.
  apply well_behaved_bind; [apply to_int_ok, parsing_exn_value |].
  intros volume self4 inp4 _.
  apply (guarded_call_ok volume (n - 1) (fun _ => cret tt)).
  - intros b. apply well_behaved_ret.
  - apply well_behaved_say.
Qed.

Lemma list_devices_call_ok {B : Type} (ok : cli_exn -> Prop)
  (k : bool -> CM B) (self : SpeakerUp) (inp : list keystroke) :
  (forall e, method_exn e -> ok (MethodError e)) ->
  (forall b self', behaves ok inp (k b self' inp)) ->
  behaves ok inp (cbind (lift (list_devices os json_loads)) k self inp).
Proof.
  intros Hok Hk. apply well_behaved_call.
  - eapply method_ok_weaken;
      [| | apply (list_devices_ok os json_loads safe_script self safe_query)];
      [auto | exact Hok].
  - intros b _. apply Hk.
Qed.

Lemma choice_craze_ok (self : SpeakerUp) (inp : list keystroke) :
  behaves menu_exn inp (choice_craze os json_loads py_int strip self inp).
Proof.
  unfold choice_craze.
  apply well_behaved_bind; [apply well_behaved_say |]. intros _ self1 inp1 _.
  apply well_behaved_bind; [apply well_behaved_say |]. intros _ self2 inp2 _.
  apply list_devices_call_ok; [apply menu_exn_method |].
  intros shown self3.
  apply well_behaved_bind; [apply input_stripped_ok; auto with cli |].
  intros choice self4 inp4 _.
  apply well_behaved_bind; [apply well_behaved_input; auto with cli |].
  intros text self5 inp5 _.
  apply well_behaved_try with (ok' := parsing_exn);
    [| apply parsing_exn_uncaught | intros; apply well_behaved_say].
  apply well_behaved_bind; [apply to_int_ok, parsing_exn_value |].
  intros volume self6 inp6 _.
  destruct (String.eqb choice "").
  - apply default_call_ok. intros b. apply well_behaved_say.
  - apply well_behaved_bind; [apply to_int_ok, parsing_exn_value |].
    intros n self7 inp7 _. cbv zeta.
    apply well_behaved_call; [apply get_devices_ok |].
    intros ds [= <-]. cbn [get_devices final].
    destruct (in_snapshot (n - 1) (devices self7)) eqn:Hin;
      [| apply well_behaved_say].
    apply well_behaved_call.
    { eapply method_ok_weaken;
        [| | apply (set_volume_listed_ok os volume (n - 1) self7 Hin)];
        [auto | apply parsing_exn_method]. }
    intros b _. rewrite set_volume_frame.
    apply well_behaved_call; [apply get_devices_ok |].
    intros ds [= <-]. cbn [get_devices final].
    destruct (item_name_ok safe_script (devices self7) (n - 1) self7 Hin)
      as [Hname Hframe].
    apply well_behaved_call.
    { eapply method_ok_weaken; [| | exact Hname];
        [auto | apply parsing_exn_method]. }
    intros name _. apply well_behaved_say.
Qed.

Lemma choice_refresh_ok (self : SpeakerUp) (inp : list keystroke) :
  behaves menu_exn inp (choice_refresh os json_loads self inp).
Proof.
  unfold choice_refresh.
  apply well_behaved_bind; [apply well_behaved_say |]. intros _ self1 inp1 _.
  apply well_behaved_call.
  - eapply method_ok_weaken;
      [| | apply (refresh_devices_ok os json_loads safe_script self1
                    safe_query)];
      [auto | apply menu_exn_method].
  - intros b _. apply well_behaved_ret.
Qed.

Lemma dispatch_ok (choice : string) (self : SpeakerUp)
  (inp : list keystroke) :
  behaves menu_exn inp
    (dispatch os json_loads py_int strip choice self inp).
Proof.
  unfold dispatch.
  destruct (String.eqb choice "1").
  { apply well_behaved_bind; [apply choice_default_volume_ok |].
    intros; apply well_behaved_ret. }
  destruct (String.eqb choice "2").
  { apply well_behaved_bind; [apply choice_device_volume_ok |].
    intros; apply well_behaved_ret. }
  destruct (String.eqb choice "3").
  { apply well_behaved_bind; [apply choice_craze_ok |].
    intros; apply well_behaved_ret. }
  destruct (String.eqb choice "4").
  { apply well_behaved_bind; [apply choice_refresh_ok |].
    intros; apply well_behaved_ret. }
  destruct (String.eqb choice "5");
    (apply well_behaved_bind; [apply well_behaved_say |]);
    intros; apply well_behaved_ret.
Qed.

Lemma print_options_run (self : SpeakerUp) (inp : list keystroke) :
  print_options self inp
  = mkCli (Done tt) self inp
      [Say MsgOptions; Say (MsgOption 1); Say (MsgOption 2);
       Say (MsgOption 3); Say (MsgOption 4); Say (MsgOption 5)].
Proof. reflexivity. Qed.

Lemma menu_iteration_ok (self : SpeakerUp) (inp : list keystroke) :
  behaves loop_exn inp
    (menu_iteration os json_loads py_int strip self inp).
Proof.
  unfold menu_iteration.
  apply well_behaved_try with (ok' := menu_exn).
  - apply well_behaved_bind.
    { rewrite print_options_run.
      repeat split; cbn; try discriminate; [constructor | lia]. }
    intros _ self1 inp1 _.
    apply well_behaved_bind; [apply input_stripped_ok; auto with cli |].
    intros choice self2 inp2 _. apply dispatch_ok.
  - apply loop_exn_uncaught.
  - intros self' inp' _.
    apply well_behaved_bind; [apply well_behaved_say |].
    intros; apply well_behaved_ret.
Qed.

(** A turn that asks for another one has read at least the choice. *)
Lemma menu_iteration_consumes (self : SpeakerUp) (inp : list keystroke) :
  ended (menu_iteration os json_loads py_int strip self inp) = Done true ->
  (List.length
     (unread (menu_iteration os json_loads py_int strip self inp))
   < List.length inp)%nat.
Proof.
  destruct inp as [| [c |] rest]; [discriminate | | discriminate].
  pose proof (dispatch_ok (strip c) self rest) as (_ & _ & _ & Hlen).
  unfold menu_iteration, ctry, cbind.
  rewrite print_options_run.
  cbn [ended app unread events input_stripped input cbind cret].
  unfold input_stripped, cbind, input, cret.
  cbn [ended app unread events].
  destruct (dispatch os json_loads py_int strip (strip c) self rest)
    as [[again | e | |] self' inp' evs];
    cbn [ended app unread events] in *; try discriminate.
  - intros _. cbn [List.length]. lia.
  - destruct (is_keyboard_interrupt e); cbn; discriminate.
Qed.

Lemma menu_loop_ok (fuel : nat) (self : SpeakerUp) (inp : list keystroke) :
  (List.length inp < fuel)%nat ->
  behaves loop_exn inp
    (menu_loop os json_loads py_int strip fuel self inp).
Proof.
  revert self inp. induction fuel as [| fuel IH]; intros self inp Hfuel;
    [lia |].
  cbn [menu_loop]. unfold cbind.
  pose proof (menu_iteration_ok self inp) as (Hscripts & Hfails & Hnot & Hlen).
  pose proof (menu_iteration_consumes self inp) as Hconsumes.
  destruct (menu_iteration os json_loads py_int strip self inp)
    as [[again | e | |] self' inp' evs];
    cbn [ended app unread events] in *.
  - destruct again.
    + specialize (Hconsumes eq_refl).
      destruct (IH self' inp') as (Hscripts' & Hfails' & Hnot' & Hlen');
        [lia |].
      repeat split; cbn [ended app unread events]; try assumption; [| lia].
      rewrite scripts_run_app. apply Forall_app. now split.
    + repeat split; cbn; try discriminate; [| lia].
      now rewrite app_nil_r.
  - repeat split; cbn; try assumption; try discriminate.
    intros e' [= <-]. now apply Hfails.
  - repeat split; cbn; try assumption; discriminate.
  - now elim Hnot.
Qed.

Lemma interactive_mode_ok (fuel : nat) (self : SpeakerUp)
  (inp : list keystroke) :
  (List.length inp < fuel)%nat ->
  behaves session_exn inp
    (interactive_mode os json_loads py_int strip fuel self inp).
Proof.
  intros Hfuel. unfold interactive_mode.
  apply well_behaved_bind.
  { repeat split; cbn; try discriminate; [constructor | lia]. }
  intros _ self1 inp1 Hlen1.
  apply well_behaved_call.
  - eapply method_ok_weaken;
      [| | apply (list_devices_ok os json_loads safe_script self1 safe_query)];
      [auto | apply session_exn_method].
  - intros shown _. destruct (negb shown); [apply well_behaved_ret |].
    apply well_behaved_weaken with (ok := loop_exn); [now left |].
    apply menu_loop_ok. lia.
Qed.


Lemma main_craze_ok (self : SpeakerUp) (inp : list keystroke) :
  behaves menu_exn inp (main_craze os json_loads py_int strip self inp).
Proof.
  unfold main_craze.
  apply well_behaved_bind; [apply well_behaved_say |]. intros _ self1 inp1 _.
  apply well_behaved_bind; [apply well_behaved_say |]. intros _ self2 inp2 _.
  apply list_devices_call_ok; [apply menu_exn_method |].
  intros shown self3.
  apply well_behaved_bind; [apply input_stripped_ok; auto with cli |].
  intros choice self4 inp4 _.
  apply well_behaved_bind; [apply well_behaved_input; auto with cli |].
  intros text self5 inp5 _.
  apply well_behaved_try with (ok' := parsing_exn);
    [| apply parsing_exn_uncaught | intros; apply well_behaved_say].
  apply well_behaved_bind; [apply to_int_ok, parsing_exn_value |].
  intros volume self6 inp6 _.
  destruct (String.eqb choice "").
  - apply default_call_ok. intros b. apply well_behaved_ret.
  - apply well_behaved_bind; [apply to_int_ok, parsing_exn_value |].
    intros n self7 inp7 _. cbv zeta.
    apply (guarded_call_ok volume (n - 1) (fun _ => cret tt)).
    + intros b. apply well_behaved_ret.
    + apply well_behaved_say.
Qed.

End Menu.

(** ** Sessions and one-shot commands *)

Section Sessions.

Variable os : run_request -> process.
Variable json_loads : string -> loads_outcome.
Variable py_int : string -> option Z.
Variable strip : string -> string.

Abbreviation session := (interactive_mode os json_loads py_int strip).
Abbreviation program := (main os json_loads py_int strip).

(** X11: Whatever is typed during an interactive session, every volume script
    the session runs carries a level within [0.0, 1.0], and a script that
    names a device names it by a non-negative index: the range check of
    [set_volume] and the bounds check of the menu stand before every
    call. *)
Theorem session_scripts_are_safe (fuel : nat) (self : SpeakerUp)
  (inp : list keystroke) :
  (List.length inp < fuel)%nat ->
  forall cmd,
    In cmd (scripts_run (events (session fuel self inp))) ->
    level_in_unit cmd /\ index_not_negative cmd.
Proof.
  intros Hfuel cmd Hin.
  destruct (interactive_mode_ok os json_loads py_int strip fuel self inp
              Hfuel) as (Hscripts & _).
  rewrite Forall_forall in Hscripts. exact (Hscripts cmd Hin).
Qed.


(** X13: Whatever the arguments and whatever is typed, every volume script
    [main] runs carries a level within [0.0, 1.0]; and the [ValueError]
    that [int] raises on a typed entry, [CalledProcessError] and
    [JSONDecodeError] never leave [main]. *)
Theorem main_scripts_in_range (fuel : nat) (args : arguments)
  (inp : list keystroke) :
  (List.length inp < fuel)%nat ->
  (forall cmd,
     In cmd (scripts_run (events (program fuel args inp))) ->
     level_in_unit cmd)
  /\ ended (program fuel args inp) <> Fails ValueError
  /\ (forall rc err,
        ended (program fuel args inp)
        <> Fails (MethodError (CalledProcessError rc err)))
  /\ ended (program fuel args inp) <> Fails (MethodError JSONDecodeError)
  /\ ended (program fuel args inp) <> Unfinished.
Proof.
  intros Hfuel.
  assert (Hmain : well_behaved level_in_unit main_exn inp
                    (program fuel args inp)).
  { unfold main. destruct (arg_list args).
    { apply well_behaved_call.
      - eapply method_ok_weaken;
          [| | apply (list_devices_ok os json_loads level_in_unit init I)];
          [auto | intros e He; left; now apply menu_exn_method].
      - intros b _. apply well_behaved_ret. }
    destruct (arg_craze args).
    { apply well_behaved_relax with (P := safe_script); [now intros cmd [] |].
      apply well_behaved_weaken with (ok := menu_exn); [now left |].
      apply main_craze_ok. }
    destruct (arg_volume args) as [volume |].
    { apply well_behaved_call; [apply set_volume_any_ok |].
      intros b _. apply well_behaved_ret. }
    destruct (arg_interactive args || no_arguments args).
    - apply well_behaved_relax with (P := safe_script); [now intros cmd [] |].
      apply well_behaved_weaken with (ok := session_exn).
      { intros e [He | ->]; [left; now left | left; now right]. }
      apply interactive_mode_ok. exact Hfuel.
    - apply well_behaved_say. }
  destruct Hmain as (Hscripts & Hfails & Hnot & _).
  rewrite Forall_forall in Hscripts.
  split; [exact Hscripts |].
  repeat split; try intros rc err; try exact Hnot; intros Hended;
    destruct (Hfails _ Hended) as [[H | H] | H];
    first [exact H | discriminate].
Qed.

(** X14: The one-shot form [-d N -v P] never enumerates, so it cannot name the
    device: for [N >= 1] and a percent in range, when the script exits
    with status 0 the acknowledgment is for "Default Device", though the
    script was given index [N - 1]. *)
Theorem one_shot_never_names_the_device (fuel : nat) (args : arguments)
  (inp : list keystroke) (volume device : Z) (out err : string) :
  arg_list args = false ->
  arg_craze args = false ->
  arg_volume args = Some volume ->
  arg_device args = Some device ->
  0 <= volume <= 100 ->
  1 <= device ->
  os (volume_request volume (Some (device - 1))) = Exits 0 out err ->
  program fuel args inp
  = mkCli (Done tt) init inp
      [Method (OsCall (powershell (SetDeviceVolume (device - 1)
                                     (volume_fraction volume))));
       Method (Print (MsgVolumeSet volume (JStr "Default Device")))].
Proof.
  intros Hlist Hcraze Hvolume Hdevice Hv Hd Hos.
  unfold main. rewrite Hlist, Hcraze, Hvolume, Hdevice.
  unfold cbind, lift.
  rewrite (set_volume_cases os volume (Some (device - 1)) init Hv).
  cbv zeta. rewrite Hos. cbn [Z.eqb].
  rewrite (resolve_beyond_snapshot (devices init) (device - 1) init)
    by (cbn; lia).
  reflexivity.
Qed.

(** X15: With [-d N] for [N <= 0] the one-shot form hands [set_volume] a
    negative index over the empty snapshot: when the script exits with
    status 0, [main] ends with the [IndexError] of the name lookup, after
    the call. *)
Theorem one_shot_device_zero (fuel : nat) (args : arguments)
  (inp : list keystroke) (volume device : Z) (out err : string) :
  arg_list args = false ->
  arg_craze args = false ->
  arg_volume args = Some volume ->
  arg_device args = Some device ->
  0 <= volume <= 100 ->
  device <= 0 ->
  os (volume_request volume (Some (device - 1))) = Exits 0 out err ->
  program fuel args inp
  = mkCli (Fails (MethodError IndexError)) init inp
      [Method (OsCall (powershell (SetDeviceVolume (device - 1)
                                     (volume_fraction volume))))].
Proof.
  intros Hlist Hcraze Hvolume Hdevice Hv Hd Hos.
  unfold main. rewrite Hlist, Hcraze, Hvolume, Hdevice.
  unfold cbind, lift.
  rewrite (set_volume_cases os volume (Some (device - 1)) init Hv).
  cbv zeta. rewrite Hos. cbn [Z.eqb].
  rewrite (resolve_below_snapshot (devices init) (device - 1) init)
    by (cbn; lia).
  reflexivity.
Qed.

End Sessions.

(** ** The choices of the menu *)

Lemma cbind_done {A B : Type} (m : CM A) (k : A -> CM B)
  (self : SpeakerUp) (inp : list keystroke)
  (a : A) (self' : SpeakerUp) (inp' : list keystroke)
  (evs : list cli_event) :
  m self inp = mkCli (Done a) self' inp' evs ->
  cbind m k self inp = prepend evs (k a self' inp').
Proof. intros Hm. unfold cbind. rewrite Hm. reflexivity. Qed.

Lemma prepend_nil {A : Type} (r : cli_result A) : prepend [] r = r.
Proof. now destruct r. Qed.

Lemma cbind_fails {A B : Type} (m : CM A) (k : A -> CM B)
  (self : SpeakerUp) (inp : list keystroke)
  (e : cli_exn) (self' : SpeakerUp) (inp' : list keystroke)
  (evs : list cli_event) :
  m self inp = mkCli (Fails e) self' inp' evs ->
  cbind m k self inp = mkCli (Fails e) self' inp' evs.
Proof. intros Hm. unfold cbind. rewrite Hm. reflexivity. Qed.

Lemma ctry_run {A : Type} (body : CM A) (catches : cli_exn -> bool)
  (handler : CM A) (self : SpeakerUp) (inp : list keystroke)
  (r : cli_result A) :
  body self inp = r ->
  ctry body catches handler self inp
  = match ended r with
    | Fails e =>
        if catches e
        then prepend (events r) (handler (app r) (unread r))
        else r
    | _ => r
    end.
Proof. intros <-. reflexivity. Qed.

Lemma lift_run {A : Type} (m : M A) (self : SpeakerUp)
  (inp : list keystroke) (r : run_result A) :
  m self = r ->
  lift m self inp
  = mkCli
      match result r with
      | Returns a => Done a
      | Raises e => Fails (MethodError e)
      | Diverges => Blocks
      end
      (final r) inp (map Method (trace r)).
Proof. intros <-. reflexivity. Qed.

Section Choices.

Variable os : run_request -> process.
Variable json_loads : string -> loads_outcome.
Variable py_int : string -> option Z.
Variable strip : string -> string.

Lemma in_snapshot_position (ds : list json) (k : nat) (device : json) :
  nth_error ds k = Some device -> in_snapshot (Z.of_nat k) ds = true.
Proof.
  intros Hnth. unfold in_snapshot.
  assert (Hlen : (k < List.length ds)%nat)
    by (apply nth_error_Some; congruence).
  apply andb_true_intro. split; [apply Z.leb_le | apply Z.ltb_lt]; lia.
Qed.

(** X16: Choosing a device by the number [list_devices] shows for it reaches
    that device: for the record at position [k], typing [k + 1] and a
    percent in range runs the script for index [k], and on status 0 the
    acknowledgment carries the name of that record. *)
Theorem choice_by_number_reaches_device (self : SpeakerUp)
  (rest : list keystroke) (k : nat) (device name : json)
  (number percent : string) (volume : Z) (out err : string) :
  nth_error (devices self) k = Some device ->
  device_field device "Name" = Some name ->
  py_int number = Some (Z.of_nat k + 1) ->
  py_int percent = Some volume ->
  0 <= volume <= 100 ->
  os (volume_request volume (Some (Z.of_nat k))) = Exits 0 out err ->
  choice_device_volume os py_int self (Line number :: Line percent :: rest)
  = mkCli (Done tt) self rest
      [Ask AskDevice; Ask AskVolume;
       Method (OsCall (powershell (SetDeviceVolume (Z.of_nat k)
                                     (volume_fraction volume))));
       Method (Print (MsgVolumeSet volume name))].
Proof.
  intros Hnth Hname Hnumber Hpercent Hv Hos.
  pose proof (in_snapshot_position (devices self) k device Hnth) as Hin.
  assert (Hset :
            set_volume os volume (Some (Z.of_nat k)) self
            = mkResult (Returns true) self
                [OsCall (volume_request volume (Some (Z.of_nat k)));
                 Print (MsgVolumeSet volume name)]).
  { apply (set_volume_ack_listed os volume (Z.of_nat k) self device name
             out err Hv); try assumption; [lia |].
    now rewrite Nat2Z.id. }
  assert (Hbody :
            (n <- to_int py_int number ;;
             let device_idx := n - 1 in
             volume <- to_int py_int percent ;;
             ds <- lift get_devices ;;
             if in_snapshot device_idx ds
             then lift (set_volume os volume (Some device_idx)) ;; cret tt
             else say MsgInvalidSelection)%cli self rest
            = mkCli (Done tt) self rest
                [Method (OsCall (volume_request volume (Some (Z.of_nat k))));
                 Method (Print (MsgVolumeSet volume name))]).
  { rewrite (cbind_done _ _ self rest (Z.of_nat k + 1) self rest [])
      by (unfold to_int; now rewrite Hnumber).
    cbv beta zeta.
    rewrite (cbind_done _ _ self rest volume self rest [])
      by (unfold to_int; now rewrite Hpercent).
    rewrite (cbind_done _ _ self rest (devices self) self rest [])
      by reflexivity.
    cbv beta. replace (Z.of_nat k + 1 - 1) with (Z.of_nat k) by lia.
    rewrite Hin.
    rewrite (cbind_done _ _ self rest true self rest
               [Method (OsCall (volume_request volume (Some (Z.of_nat k))));
                Method (Print (MsgVolumeSet volume name))])
      by (rewrite (lift_run _ self rest _ Hset); reflexivity).
    reflexivity. }
  unfold choice_device_volume.
  rewrite (cbind_done _ _ self _ number self (Line percent :: rest)
             [Ask AskDevice]) by reflexivity.
  cbv beta.
  rewrite (cbind_done _ _ self _ percent self rest [Ask AskVolume]) by reflexivity.
  cbv beta.
  rewrite (ctry_run _ _ _ self rest _ Hbody). reflexivity.
Qed.

(** X17: Choice 2 reaches the operating system only when both entries are
    numbers, the device number lies within the list and the percent lies
    within [0, 100]: in every other case no script is run. *)
Theorem choice_device_volume_guarded (self : SpeakerUp)
  (inp : list keystroke) :
  scripts_run (events (choice_device_volume os py_int self inp)) <> [] ->
  exists number percent rest n volume,
    inp = Line number :: Line percent :: rest
    /\ py_int number = Some n
    /\ py_int percent = Some volume
    /\ 1 <= n <= Z.of_nat (List.length (devices self))
    /\ 0 <= volume <= 100.
Proof.
  unfold choice_device_volume.
  destruct inp as [| [number |] inp1];
    [rewrite (cbind_fails _ _ self [] EOFError self [] [Ask AskDevice]
               ) by reflexivity; cbn; congruence
    |
    | rewrite (cbind_fails _ _ self _ KeyboardInterrupt self inp1
                 [Ask AskDevice]) by reflexivity; cbn; congruence].
  rewrite (cbind_done _ _ self _ number self inp1 [Ask AskDevice]) by reflexivity.
  cbv beta.
  destruct inp1 as [| [percent |] rest];
    [rewrite (cbind_fails _ _ self [] EOFError self [] [Ask AskVolume]
               ) by reflexivity; cbn; congruence
    |
    | rewrite (cbind_fails _ _ self _ KeyboardInterrupt self rest
                 [Ask AskVolume]) by reflexivity; cbn; congruence].
  rewrite (cbind_done _ _ self _ percent self rest [Ask AskVolume]) by reflexivity.
  cbv beta.
  set (body := (n <- to_int py_int number ;;
                let device_idx := n - 1 in
                volume <- to_int py_int percent ;;
                ds <- lift get_devices ;;
                if in_snapshot device_idx ds
                then lift (set_volume os volume (Some device_idx)) ;; cret tt
                else say MsgInvalidSelection)%cli).
  destruct (py_int number) as [n |] eqn:Hnumber.
  2: { assert (Hbody : body self rest = mkCli (Fails ValueError) self rest []).
       { apply cbind_fails. unfold to_int. now rewrite Hnumber. }
       rewrite (ctry_run _ _ _ self rest _ Hbody). cbn. congruence. }
  destruct (py_int percent) as [volume |] eqn:Hpercent.
  2: { assert (Hbody : body self rest = mkCli (Fails ValueError) self rest []).
       { unfold body.
         rewrite (cbind_done _ _ self rest n self rest [])
           by (unfold to_int; now rewrite Hnumber).
         cbv beta zeta.
         rewrite (cbind_fails _ _ self rest ValueError self rest [])
           by (unfold to_int; now rewrite Hpercent).
         reflexivity. }
       rewrite (ctry_run _ _ _ self rest _ Hbody). cbn. congruence. }
  assert (Hguarded :
            body self rest
            = if in_snapshot (n - 1) (devices self)
              then (lift (set_volume os volume (Some (n - 1))) ;; cret tt)%cli
                     self rest
              else say MsgInvalidSelection self rest).
  { unfold body.
    rewrite (cbind_done _ _ self rest n self rest [])
      by (unfold to_int; now rewrite Hnumber).
    cbv beta zeta.
    rewrite (cbind_done _ _ self rest volume self rest [])
      by (unfold to_int; now rewrite Hpercent).
    rewrite (cbind_done _ _ self rest (devices self) self rest [])
      by reflexivity.
    cbv beta. rewrite !prepend_nil.
    destruct (in_snapshot (n - 1) (devices self)); reflexivity. }
  destruct (in_snapshot (n - 1) (devices self)) eqn:Hin.
  2: { rewrite (ctry_run _ _ _ self rest _ Hguarded). cbn. congruence. }
  destruct (set_volume_outcomes os volume (Some (n - 1)) self)
    as [_ [Hrejected | (Hv & _)]].
  - assert (Hbody : body self rest
                    = mkCli (Done tt) self rest
                        [Method (Print MsgVolumeRange)]).
    { rewrite Hguarded.
      rewrite (cbind_done _ _ self rest false self rest
                 [Method (Print MsgVolumeRange)])
        by (rewrite (lift_run _ self rest _ Hrejected); reflexivity).
      reflexivity. }
    rewrite (ctry_run _ _ _ self rest _ Hbody). cbn. congruence.
  - intros _. exists number, percent, rest, n, volume.
    repeat split; try assumption; try lia;
      unfold in_snapshot in Hin; apply andb_prop in Hin;
      destruct Hin as [Hlo Hhi];
      apply Z.leb_le in Hlo; apply Z.ltb_lt in Hhi; lia.
Qed.

(** X18: CRAZE mode of the menu announces the volume as applied whether or not
    [set_volume] accepted it: for the default device and a percent outside
    [0, 100], the range error is followed by the "applied" message, and no
    script is run for the volume. *)
Theorem craze_announces_rejected_volume (self : SpeakerUp)
  (rest : list keystroke) (choice percent : string) (volume : Z)
  (shown : bool) :
  result (list_devices os json_loads self) = Returns shown ->
  strip choice = "" ->
  py_int percent = Some volume ->
  volume < 0 \/ volume > 100 ->
  choice_craze os json_loads py_int strip self
    (Line choice :: Line percent :: rest)
  = mkCli (Done tt) (final (list_devices os json_loads self)) rest
      ([Say MsgCrazeActivated; Say MsgCrazeGoCrazy]
       ++ map Method (trace (list_devices os json_loads self))
       ++ [Ask AskCrazeDevice; Ask AskCrazeVolume;
           Method (Print MsgVolumeRange);
           Say (MsgCrazeAppliedDefault volume)]).
Proof.
  intros Hshown Hchoice Hpercent Hrange.
  assert (Hguard : (volume <? 0) || (volume >? 100) = true).
  { apply orb_true_iff. destruct Hrange as [Hlo | Hhi].
    - left. now apply Z.ltb_lt.
    - right. apply Z.gtb_lt. lia. }
  assert (Hbody :
            (volume <- to_int py_int percent ;;
             if String.eqb (strip choice) ""
             then
               lift (set_volume os volume None) ;;
               say (MsgCrazeAppliedDefault volume)
             else
               n <- to_int py_int (strip choice) ;;
               let device_idx := n - 1 in
               ds <- lift get_devices ;;
               if in_snapshot device_idx ds
               then
                 lift (set_volume os volume (Some device_idx)) ;;
                 ds <- lift get_devices ;;
                 name <- lift (item_name ds device_idx) ;;
                 say (MsgCrazeApplied volume name)
               else say MsgInvalidSelection)%cli
              (final (list_devices os json_loads self)) rest
            = mkCli (Done tt) (final (list_devices os json_loads self)) rest
                [Method (Print MsgVolumeRange);
                 Say (MsgCrazeAppliedDefault volume)]).
  { rewrite (cbind_done _ _ _ rest volume _ rest [])
      by (unfold to_int; now rewrite Hpercent).
    cbv beta. rewrite Hchoice. cbn [String.eqb].
    rewrite (cbind_done _ _ _ rest false _ rest
               [Method (Print MsgVolumeRange)])
      by (rewrite (lift_run _ _ rest _
                     (set_volume_rejected os volume None _ Hguard));
          reflexivity).
    reflexivity. }
  unfold choice_craze.
  rewrite (cbind_done _ _ self _ tt self _ [Say MsgCrazeActivated]) by reflexivity.
  cbv beta.
  rewrite (cbind_done _ _ self _ tt self _ [Say MsgCrazeGoCrazy]) by reflexivity.
  cbv beta.
  rewrite (cbind_done _ _ self _ shown
             (final (list_devices os json_loads self)) _
             (map Method (trace (list_devices os json_loads self))))
    by (rewrite (lift_run _ self _ _ eq_refl); now rewrite Hshown).
  cbv beta.
  rewrite (cbind_done _ _ _ _ (strip choice) _ (Line percent :: rest)
             [Ask AskCrazeDevice]) by reflexivity.
  cbv beta.
  rewrite (cbind_done _ _ _ _ percent _ rest [Ask AskCrazeVolume]) by reflexivity.
  cbv beta.
  rewrite (ctry_run _ _ _ _ rest _ Hbody).
  unfold prepend. cbn [ended app unread events List.app].
  rewrite <- ?app_assoc. reflexivity.
Qed.

End Choices.

(** ** Sessions on the scenario worlds *)

(** Listing, choosing device 2 at 75 percent, then leaving. *)
Example session_choose_second_device :
  interactive_mode (os_prints two_devices_text) loads_scenarios
    int_of_numeral strip_nothing 4 init
    [Line "2"; Line "2"; Line "75"; Line "5"]
  = mkCli (Done tt) two_devices []
      [Say (MsgBanner 1); Say (MsgBanner 2); Say (MsgBanner 3);
       Say (MsgBanner 4); Say (MsgBanner 5); Say (MsgBanner 6);
       Method (OsCall query_request);
       Method (Print MsgDevicesHeader); Method (Print MsgRule);
       Method (Print (MsgDeviceLine 1 (JStr "Speakers") true));
       Method (Print (MsgDeviceLine 2 (JStr "Headset") false));
       Method (Print MsgRule);
       Say MsgOptions; Say (MsgOption 1); Say (MsgOption 2);
       Say (MsgOption 3); Say (MsgOption 4); Say (MsgOption 5);
       Ask AskChoice; Ask AskDevice; Ask AskVolume;
       Method (OsCall (powershell (SetDeviceVolume 1 0.75%float)));
       Method (Print (MsgVolumeSet 75 (JStr "Headset")));
       Say MsgOptions; Say (MsgOption 1); Say (MsgOption 2);
       Say (MsgOption 3); Say (MsgOption 4); Say (MsgOption 5);
       Ask AskChoice; Say MsgGoodbye].
Proof. vm_compute. reflexivity. Qed.

(** Ctrl-C at the volume prompt ends the session with the farewell. *)
Example session_interrupted :
  interactive_mode os_absent loads_scenarios int_of_numeral strip_nothing
    3 init [Line "1"; CtrlC; Line "5"]
  = mkCli (Done tt) (mkSpeakerUp [fallback_device]) [Line "5"]
      [Say (MsgBanner 1); Say (MsgBanner 2); Say (MsgBanner 3);
       Say (MsgBanner 4); Say (MsgBanner 5); Say (MsgBanner 6);
       Method (OsCall query_request);
       Method (Print MsgDevicesHeader); Method (Print MsgRule);
       Method (Print (MsgDeviceLine 1 (JStr "Default Audio Device") true));
       Method (Print MsgRule);
       Say MsgOptions; Say (MsgOption 1); Say (MsgOption 2);
       Say (MsgOption 3); Say (MsgOption 4); Say (MsgOption 5);
       Ask AskChoice; Ask AskVolume; Say MsgGoodbyeInterrupted].
Proof. vm_compute. reflexivity. Qed.

(** Ctrl-C during the listing that precedes the loop ends the session
    with the [KeyboardInterrupt] itself, and no farewell. *)
Example session_interrupted_while_listing :
  interactive_mode os_interrupted loads_scenarios int_of_numeral
    strip_nothing 3 init [Line "5"]
  = mkCli (Fails (MethodError CallInterrupted)) init [Line "5"]
      [Say (MsgBanner 1); Say (MsgBanner 2); Say (MsgBanner 3);
       Say (MsgBanner 4); Say (MsgBanner 5); Say (MsgBanner 6);
       Method (OsCall query_request)].
Proof. vm_compute. reflexivity. Qed.

(** Ctrl-C during the volume script of choice 1 is caught by the loop. *)
Example session_interrupted_while_setting :
  menu_loop os_interrupted loads_scenarios int_of_numeral strip_nothing
    3 two_devices [Line "1"; Line "50"; Line "5"]
  = mkCli (Done tt) two_devices [Line "5"]
      [Say MsgOptions; Say (MsgOption 1); Say (MsgOption 2);
       Say (MsgOption 3); Say (MsgOption 4); Say (MsgOption 5);
       Ask AskChoice; Ask AskVolume;
       Method (OsCall (powershell (SetDefaultVolume 0.5%float)));
       Say MsgGoodbyeInterrupted].
Proof. vm_compute. reflexivity. Qed.

(** A volume script whose output is not text: [UnicodeDecodeError] is a
    [ValueError], and choice 1 reports it as an invalid volume. *)
Example session_garbled_volume :
  interactive_mode os_garbled_volume loads_scenarios int_of_numeral
    strip_nothing 3 init [Line "1"; Line "50"; Line "5"]
  = mkCli (Done tt) (mkSpeakerUp [fallback_device]) []
      [Say (MsgBanner 1); Say (MsgBanner 2); Say (MsgBanner 3);
       Say (MsgBanner 4); Say (MsgBanner 5); Say (MsgBanner 6);
       Method (OsCall query_request);
       Method (Print MsgDevicesHeader); Method (Print MsgRule);
       Method (Print (MsgDeviceLine 1 (JStr "Default Audio Device") true));
       Method (Print MsgRule);
       Say MsgOptions; Say (MsgOption 1); Say (MsgOption 2);
       Say (MsgOption 3); Say (MsgOption 4); Say (MsgOption 5);
       Ask AskChoice; Ask AskVolume;
       Method (OsCall (powershell (SetDefaultVolume 0.5%float)));
       Say MsgInvalidVolume;
       Say MsgOptions; Say (MsgOption 1); Say (MsgOption 2);
       Say (MsgOption 3); Say (MsgOption 4); Say (MsgOption 5);
       Ask AskChoice; Say MsgGoodbye].
Proof. vm_compute. reflexivity. Qed.

(** The same output in the listing of choice 3 is outside the inner [try],
    and leaves the session. *)
Example session_garbled_listing :
  ended
    (menu_loop os_garbled loads_scenarios int_of_numeral strip_nothing
       3 init [Line "3"; Line ""; Line "50"])
  = Fails (MethodError UnicodeDecodeError).
Proof. vm_compute. reflexivity. Qed.

(** ** Instances of the further properties *)

Lemma list_devices_uses_cache_witness :
  devices two_devices <> []
  /\ os_calls (trace (list_devices os_hangs loads_scenarios two_devices)) = []
  /\ final (list_devices os_hangs loads_scenarios two_devices) = two_devices.
Proof.
  assert (Hcached : devices two_devices <> []) by discriminate.
  split; [exact Hcached |].
  apply (list_devices_uses_cache os_hangs loads_scenarios two_devices Hcached).
Defined.

Lemma list_devices_numbers_from_one_witness :
  devices two_devices <> []
  /\ Forall (fun d => listing_error d = None) (devices two_devices)
  /\ result (list_devices os_hangs loads_scenarios two_devices)
     = Returns true.
Proof.
  assert (Hcached : devices two_devices <> []) by discriminate.
  assert (Hnamed : Forall (fun d => listing_error d = None)
                     (devices two_devices))
    by (repeat constructor).
  split; [exact Hcached |]. split; [exact Hnamed |].
  apply (list_devices_numbers_from_one os_hangs loads_scenarios two_devices
           Hcached Hnamed).
Defined.

Lemma list_devices_stops_at_bad_record_witness :
  devices odd_snapshot
  = [device_value 0 "Speakers" true]
    ++ JInt 42 :: [device_value 2 "Headset" false]
  /\ listing_error (JInt 42) = Some AttributeError
  /\ result (list_devices os_quiet loads_scenarios odd_snapshot)
     = Raises AttributeError.
Proof.
  split; [reflexivity |]. split; [reflexivity |].
  apply (list_devices_stops_at_bad_record os_quiet loads_scenarios
           odd_snapshot [device_value 0 "Speakers" true]
           [device_value 2 "Headset" false] (JInt 42) AttributeError);
    [reflexivity | repeat constructor | reflexivity].
Defined.

Lemma list_devices_empty_answer_witness :
  devices init = []
  /\ os_prints "[]" query_request = Exits 0 "[]" ""
  /\ loads_more "[]" = Loaded (JArr [])
  /\ list_devices (os_prints "[]") loads_more
       (final (list_devices (os_prints "[]") loads_more init))
     = mkResult (Returns true) (mkSpeakerUp [])
         [OsCall query_request; Print MsgDevicesHeader; Print MsgRule;
          Print MsgRule].
Proof.
  split; [reflexivity |]. split; [reflexivity |]. split; [reflexivity |].
  apply (list_devices_empty_answer (os_prints "[]") loads_more init "[]" "");
    reflexivity.
Defined.

Lemma refresh_queries_witness :
  get_audio_devices (os_prints "[]") loads_more two_devices
  = mkResult (Returns true) (mkSpeakerUp []) [OsCall query_request]
  /\ os_calls (trace (refresh_devices (os_prints "[]") loads_more
                        two_devices))
     = [query_request; query_request].
Proof.
  split; [reflexivity |].
  apply (refresh_queries (os_prints "[]") loads_more two_devices []).
  reflexivity.
Defined.

Lemma set_volume_reports_stderr_witness :
  0 <= 50 <= 100
  /\ 1 <> 0
  /\ set_volume os_fails 50 None init
     = mkResult (Returns false) init
         [OsCall (volume_request 50 None);
          Print (MsgErrorSetting "Get-AudioDevice : command not recognized")].
Proof.
  split; [lia |]. split; [lia |].
  apply (set_volume_reports_stderr os_fails 50 None init 1 ""
           "Get-AudioDevice : command not recognized");
    [lia | reflexivity | lia].
Defined.

Lemma set_volume_without_powershell_witness :
  (forall req, os_absent req = NotFound)
  /\ 0 <= 50 <= 100
  /\ set_volume os_absent 50 (Some 0) two_devices
     = mkResult (Raises FileNotFoundError) two_devices
         [OsCall (volume_request 50 (Some 0))].
Proof.
  split; [reflexivity |]. split; [lia |].
  apply (set_volume_without_powershell os_absent 50 (Some 0) two_devices
           loads_scenarios); [reflexivity | lia].
Defined.

Lemma set_volume_counts_from_the_end_witness :
  - Z.of_nat (List.length (devices two_devices)) <= -1 < 0
  /\ set_volume os_quiet 50 (Some (-1)) two_devices
     = mkResult (Returns true) two_devices
         [OsCall (powershell (SetDeviceVolume (-1) (volume_fraction 50)));
          Print (MsgVolumeSet 50 (JStr "Headset"))].
Proof.
  split; [simpl; lia |].
  apply (set_volume_counts_from_the_end os_quiet 50 (-1) two_devices
           (device_value 1 "Headset" false) (JStr "Headset") "" "");
    [lia | simpl; lia | reflexivity | reflexivity | reflexivity].
Defined.

Lemma set_volume_nameless_record_witness :
  nth_error (devices odd_snapshot) (Z.to_nat 1) = Some (JInt 42)
  /\ device_field (JInt 42) "Name" = None
  /\ exists e,
       set_volume os_quiet 50 (Some 1) odd_snapshot
       = mkResult (Raises e) odd_snapshot [OsCall (volume_request 50 (Some 1))]
       /\ (e = KeyError "Name" \/ e = TypeError).
Proof.
  split; [reflexivity |]. split; [reflexivity |].
  apply (set_volume_nameless_record os_quiet 50 1 odd_snapshot (JInt 42)
           "" ""); [lia | lia | reflexivity | reflexivity | reflexivity].
Defined.

Lemma session_scripts_are_safe_witness :
  (List.length [Line "1"; Line "50"; Line "5"] < 4)%nat
  /\ forall cmd,
       In cmd
         (scripts_run
            (events
               (interactive_mode os_quiet loads_scenarios int_of_numeral
                  strip_nothing 4 init [Line "1"; Line "50"; Line "5"]))) ->
       level_in_unit cmd /\ index_not_negative cmd.
Proof.
  assert (Hfuel : (List.length [Line "1"; Line "50"; Line "5"] < 4)%nat)
    by (simpl; lia).
  split; [exact Hfuel |].
  apply (session_scripts_are_safe os_quiet loads_scenarios int_of_numeral
           strip_nothing 4 init [Line "1"; Line "50"; Line "5"] Hfuel).
Defined.


Lemma main_scripts_in_range_witness :
  (List.length (@nil keystroke) < 1)%nat
  /\ forall cmd,
       In cmd
         (scripts_run
            (events
               (main os_quiet loads_scenarios int_of_numeral strip_nothing
                  1 (one_shot 75 1) []))) ->
       level_in_unit cmd.
Proof.
  assert (Hfuel : (List.length (@nil keystroke) < 1)%nat) by (simpl; lia).
  split; [exact Hfuel |].
  apply (main_scripts_in_range os_quiet loads_scenarios int_of_numeral
           strip_nothing 1 (one_shot 75 1) [] Hfuel).
Defined.

Lemma one_shot_never_names_the_device_witness :
  0 <= 75 <= 100
  /\ 1 <= 1
  /\ main (os_prints two_devices_text) loads_scenarios int_of_numeral
       strip_nothing 1 (one_shot 75 1) []
     = mkCli (Done tt) init []
         [Method (OsCall (powershell (SetDeviceVolume (1 - 1)
                                        (volume_fraction 75))));
          Method (Print (MsgVolumeSet 75 (JStr "Default Device")))].
Proof.
  split; [lia |]. split; [lia |].
  apply (one_shot_never_names_the_device (os_prints two_devices_text)
           loads_scenarios int_of_numeral strip_nothing 1 (one_shot 75 1) []
           75 1 two_devices_text "");
    try reflexivity; lia.
Defined.

Lemma one_shot_device_zero_witness :
  0 <= 75 <= 100
  /\ 0 <= 0
  /\ main os_quiet loads_scenarios int_of_numeral strip_nothing 1
       (one_shot 75 0) []
     = mkCli (Fails (MethodError IndexError)) init []
         [Method (OsCall (powershell (SetDeviceVolume (0 - 1)
                                        (volume_fraction 75))))].
Proof.
  split; [lia |]. split; [lia |].
  apply (one_shot_device_zero os_quiet loads_scenarios int_of_numeral
           strip_nothing 1 (one_shot 75 0) [] 75 0 "" "");
    try reflexivity; lia.
Defined.

Lemma choice_by_number_reaches_device_witness :
  nth_error (devices two_devices) 1 = Some (device_value 1 "Headset" false)
  /\ int_of_numeral "2" = Some (Z.of_nat 1 + 1)
  /\ int_of_numeral "75" = Some 75
  /\ choice_device_volume os_quiet int_of_numeral two_devices
       [Line "2"; Line "75"; Line "5"]
     = mkCli (Done tt) two_devices [Line "5"]
         [Ask AskDevice; Ask AskVolume;
          Method (OsCall (powershell (SetDeviceVolume (Z.of_nat 1)
                                        (volume_fraction 75))));
          Method (Print (MsgVolumeSet 75 (JStr "Headset")))].
Proof.
  split; [reflexivity |]. split; [reflexivity |]. split; [reflexivity |].
  apply (choice_by_number_reaches_device os_quiet int_of_numeral two_devices
           [Line "5"] 1 (device_value 1 "Headset" false) (JStr "Headset")
           "2" "75" 75 "" "");
    try reflexivity; lia.
Defined.

Lemma choice_device_volume_guarded_witness :
  scripts_run
    (events
       (choice_device_volume os_quiet int_of_numeral two_devices
          [Line "1"; Line "30"])) <> []
  /\ exists number percent rest n volume,
       [Line "1"; Line "30"] = Line number :: Line percent :: rest
       /\ int_of_numeral number = Some n
       /\ int_of_numeral percent = Some volume
       /\ 1 <= n <= Z.of_nat (List.length (devices two_devices))
       /\ 0 <= volume <= 100.
Proof.
  assert (Hran : scripts_run
                   (events
                      (choice_device_volume os_quiet int_of_numeral
                         two_devices [Line "1"; Line "30"])) <> [])
    by (vm_compute; discriminate).
  split; [exact Hran |].
  apply (choice_device_volume_guarded os_quiet int_of_numeral two_devices
           [Line "1"; Line "30"] Hran).
Defined.

Lemma craze_announces_rejected_volume_witness :
  result (list_devices os_quiet loads_scenarios two_devices) = Returns true
  /\ strip_nothing "" = ""
  /\ int_of_numeral "150" = Some 150
  /\ (150 < 0 \/ 150 > 100)
  /\ events
       (choice_craze os_quiet loads_scenarios int_of_numeral strip_nothing
          two_devices [Line ""; Line "150"])
     = [Say MsgCrazeActivated; Say MsgCrazeGoCrazy;
        Method (Print MsgDevicesHeader); Method (Print MsgRule);
        Method (Print (MsgDeviceLine 1 (JStr "Speakers") true));
        Method (Print (MsgDeviceLine 2 (JStr "Headset") false));
        Method (Print MsgRule);
        Ask AskCrazeDevice; Ask AskCrazeVolume;
        Method (Print MsgVolumeRange); Say (MsgCrazeAppliedDefault 150)].
Proof.
  split; [reflexivity |]. split; [reflexivity |]. split; [reflexivity |].
  split; [right; lia |].
  rewrite (craze_announces_rejected_volume os_quiet loads_scenarios
             int_of_numeral strip_nothing two_devices [] "" "150" 150 true);
    [reflexivity | reflexivity | reflexivity | reflexivity | right; lia].
Defined.
